(* ===================================================================== *)
(* Health-Monitor (app.py): a shallow embedding of the lab-report        *)
(* pipeline and the properties its specification states about it.        *)
(*                                                                       *)
(*   clean_data                 validator (allow-list filter)            *)
(*   extract_all_data_from_pdf  regular-expression extraction            *)
(*   handle_upload              table rows and patient drop-down options *)
(*   analyze_test_results       Low / Normal / High classification       *)
(*   update_charts              per patient, per test series             *)
(*                                                                       *)
(* Text is a Python str.  It is modelled by Stdlib's [string], read as   *)
(* the UTF-8 bytes of the text: equality and membership are exact, the   *)
(* character classes (\s, \w, \d, str.isspace) are exact on ASCII, and   *)
(* a byte above 127 counts as a word character that is neither a space   *)
(* nor a digit.                                                          *)
(* ===================================================================== *)

From Stdlib Require Import ZArith QArith Ascii String List Bool Lia Sorting.Sorted Sorting.Permutation.
From stdpp Require Import base option list gmap strings pretty.

Local Open Scope string_scope.
Local Open Scope list_scope.

(* --------------------------------------------------------------------- *)
(** * Python exceptions and a small error monad                          *)
(* --------------------------------------------------------------------- *)

Inductive exn : Type :=
| ValueError   (* float() or strptime() on text that does not parse *)
| IndexError   (* s[0] on the empty string *)
| TypeError.   (* strptime(None, ...) *)

Inductive result (A : Type) : Type :=
| Ok (a : A)
| Raise (e : exn).
Arguments Ok {A} a.
Arguments Raise {A} e.

Definition bind {A B : Type} (m : result A) (k : A -> result B) : result B :=
  match m with
  | Ok a => k a
  | Raise e => Raise e
  end.

Notation "'let*' x ':=' m 'in' k" := (bind m (fun x => k))
  (at level 10, x name, m at level 100, k at level 200).

(** [for x in l: acc = f acc x], where the body can raise. *)
Fixpoint foldM {A S : Type} (f : S -> A -> result S) (l : list A) (s : S) : result S :=
  match l with
  | [] => Ok s
  | x :: l' => let* s' := f s x in foldM f l' s'
  end.

(** A list comprehension whose element expression can raise. *)
Fixpoint traverse {A B : Type} (f : A -> result B) (l : list A) : result (list B) :=
  match l with
  | [] => Ok []
  | x :: l' => let* y := f x in let* ys := traverse f l' in Ok (y :: ys)
  end.

(* --------------------------------------------------------------------- *)
(** * Characters and the str methods the program uses                    *)
(* --------------------------------------------------------------------- *)

Definition code (c : ascii) : N := N_of_ascii c.

Definition in_range (lo hi : ascii) (c : ascii) : bool :=
  ((code lo <=? code c) && (code c <=? code hi))%N.

Definition is_digit (c : ascii) : bool := in_range "0" "9" c.
Definition is_lower (c : ascii) : bool := in_range "a" "z" c.
Definition is_upper (c : ascii) : bool := in_range "A" "Z" c.
Definition is_alpha (c : ascii) : bool := is_lower c || is_upper c.

(** str.isspace, also the class \s of a str pattern: \t \n \v \f \r,
    the separators 0x1c-0x1f and the space. *)
Definition is_space (c : ascii) : bool :=
  ((9 <=? code c) && (code c <=? 13) || (28 <=? code c) && (code c <=? 32))%N.

(** The class \w of a str pattern: alphanumerics and the underscore. *)
Definition is_word (c : ascii) : bool :=
  is_alpha c || is_digit c || (code c =? 95)%N || (128 <=? code c)%N.

(** Py_ISSPACE, the white space float() strips: \t \n \v \f \r and space. *)
Definition is_c_space (c : ascii) : bool :=
  ((9 <=? code c) && (code c <=? 13) || (code c =? 32))%N.

Fixpoint drop_while (p : ascii -> bool) (s : string) : string :=
  match s with
  | String c s' => if p c then drop_while p s' else s
  | EmptyString => EmptyString
  end.

Fixpoint take_while (p : ascii -> bool) (s : string) : string :=
  match s with
  | String c s' => if p c then String c (take_while p s') else EmptyString
  | EmptyString => EmptyString
  end.

Fixpoint rev_string (s acc : string) : string :=
  match s with
  | String c s' => rev_string s' (String c acc)
  | EmptyString => acc
  end.

Definition rstrip_by (p : ascii -> bool) (s : string) : string :=
  rev_string (drop_while p (rev_string s "")) "".

Definition strip_by (p : ascii -> bool) (s : string) : string :=
  rstrip_by p (drop_while p s).

(** s.strip(): the white space of ASCII is stripped; the spaces of other
    scripts, which str.strip() removes as well, are kept. *)
Definition strip (s : string) : string := strip_by is_space s.

(** s[1:], for a text whose first character is an ASCII one: one byte is
    dropped. *)
Definition tail (s : string) : string :=
  match s with
  | String _ s' => s'
  | EmptyString => EmptyString
  end.

(** s[0] *)
Definition first_char (s : string) : result ascii :=
  match s with
  | String c _ => Ok c
  | EmptyString => Raise IndexError
  end.

Fixpoint snoc (s : string) (c : ascii) : string :=
  match s with
  | String d s' => String d (snoc s' c)
  | EmptyString => String c EmptyString
  end.

(** s.split(sep) for a non-empty separator: the pieces between the
    successive, non-overlapping occurrences of sep, scanned from the left.
    [cur] is the piece being read, [skip] the number of characters of an
    occurrence of sep still to pass over. *)
Fixpoint split_go (sep : string) (cur : string) (skip : nat) (s : string) : list string :=
  match s with
  | EmptyString => [cur]
  | String c s' =>
      match skip with
      | S k => split_go sep cur k s'
      | O =>
          if String.prefix sep s
          then cur :: split_go sep "" (String.length sep - 1) s'
          else split_go sep (snoc cur c) 0 s'
      end
  end.

Definition split (sep : string) (s : string) : list string := split_go sep "" 0 s.

(** ", ".join(l) and friends *)
Fixpoint join (sep : string) (l : list string) : string :=
  match l with
  | [] => ""
  | [x] => x
  | x :: l' => x ++ sep ++ join sep l'
  end.

(** x in l, for a list of str *)
Definition str_in (x : string) (l : list string) : bool :=
  existsb (String.eqb x) l.

Fixpoint lower (s : string) : string :=
  match s with
  | String c s' =>
      String (if is_upper c then ascii_of_N (code c + 32) else c) (lower s')
  | EmptyString => EmptyString
  end.

(* --------------------------------------------------------------------- *)
(** * float(str) and the comparison of floats                            *)
(* --------------------------------------------------------------------- *)

(** A float is a finite number, an infinity or a NaN.  A finite value is
    kept as the exact rational its literal denotes; the rounding to
    binary64 is not modelled. *)
Inductive pyfloat : Type :=
| Fin (q : Q)
| Inf (negative : bool)
| NaN.

(** a < b on floats: false as soon as one side is a NaN. *)
Definition flt (a b : pyfloat) : bool :=
  match a, b with
  | NaN, _ | _, NaN => false
  | Fin x, Fin y => negb (Qle_bool y x)
  | Fin _, Inf neg => negb neg
  | Inf neg, Fin _ => neg
  | Inf n1, Inf n2 => n1 && negb n2
  end.

(** a > b *)
Definition fgt (a b : pyfloat) : bool := flt b a.

(** a <= b: false as soon as one side is a NaN. *)
Definition fle (a b : pyfloat) : bool :=
  match a, b with
  | NaN, _ | _, NaN => false
  | Fin x, Fin y => Qle_bool x y
  | Fin _, Inf neg => negb neg
  | Inf neg, Fin _ => neg
  | Inf n1, Inf n2 => n1 || negb n2
  end.

Definition is_nan (a : pyfloat) : bool :=
  match a with NaN => true | _ => false end.

Definition digit_val (c : ascii) : Z := Z.of_N (code c) - 48.

Fixpoint digits_val (acc : Z) (s : string) : Z :=
  match s with
  | String c s' => digits_val (10 * acc + digit_val c) s'
  | EmptyString => acc
  end.

(** An optional sign: (negative?, rest). *)
Definition read_sign (s : string) : bool * string :=
  match s with
  | String "-" s' => (true, s')
  | String "+" s' => (false, s')
  | _ => (false, s)
  end.

(** The grouping underscores of a numeric literal: each must stand between
    two digits.  [prev] is the previous character.  Returns the text with
    the underscores removed, or None. *)
Fixpoint strip_underscores (prev : ascii) (s : string) : option string :=
  match s with
  | EmptyString => if (code prev =? 95)%N then None else Some EmptyString
  | String c s' =>
      if (code c =? 95)%N then
        if is_digit prev then strip_underscores c s' else None
      else if (code prev =? 95)%N && negb (is_digit c) then None
      else match strip_underscores c s' with
           | Some r => Some (String c r)
           | None => None
           end
  end.

Definition signed (neg : bool) (z : Z) : Z := if neg then (- z)%Z else z.

(** The exponent part: empty, or e/E, an optional sign and digits. *)
Definition read_exponent (s : string) : option Z :=
  match s with
  | EmptyString => Some 0%Z
  | String c s' =>
      if (code c =? 101)%N || (code c =? 69)%N then
        let '(eneg, s1) := read_sign s' in
        let ds := take_while is_digit s1 in
        match ds, drop_while is_digit s1 with
        | String _ _, EmptyString => Some (signed eneg (digits_val 0 ds))
        | _, _ => None
        end
      else None
  end.

(** The text between the white space: [sign] (digits [. digits] | . digits)
    [exponent], or [sign] inf | infinity | nan in any letter case. *)
Definition parse_float (s : string) : option pyfloat :=
  let '(neg, s1) := read_sign s in
  let ip := take_while is_digit s1 in
  let s2 := drop_while is_digit s1 in
  let '(fp, s3) :=
    match s2 with
    | String "." r => (take_while is_digit r, drop_while is_digit r)
    | _ => (EmptyString, s2)
    end in
  match (ip ++ fp)%string with
  | EmptyString =>
      let w := lower s1 in
      if String.eqb w "inf" || String.eqb w "infinity" then Some (Inf neg)
      else if String.eqb w "nan" then Some NaN
      else None
  | String _ _ as ds =>
      match read_exponent s3 with
      | Some e =>
          Some (Fin (inject_Z (signed neg (digits_val 0 ds))
                     * (10 # 1) ^ (e - Z.of_nat (String.length fp)))%Q)
      | None => None
      end
  end.

(** float(s) for a str s of ASCII characters, with the exact value of the
    literal: the rounding to binary64 and the digits and spaces of other
    scripts, which float() accepts, are not modelled. *)
Definition float (s : string) : result pyfloat :=
  let t := strip_by is_c_space s in
  match strip_underscores "000" t with
  | Some u =>
      match parse_float u with
      | Some x => Ok x
      | None => Raise ValueError
      end
  | None => Raise ValueError
  end.

(* --------------------------------------------------------------------- *)
(** * Records                                                            *)
(* --------------------------------------------------------------------- *)

(** The dictionaries the stages pass along, with the keys 'Name', 'Date',
    'Test Name', 'Value', 'Unit', 'Reference Range' and, once classified,
    'Category'.  'Name' and 'Date' are None when the document has none. *)
Record row : Type := mkRow {
  Name : option string;
  Date : option string;
  TestName : string;
  Value : string;
  Unit : string;
  ReferenceRange : string;
  Category : option string
}.

(** item['Category'] = c *)
Definition set_Category (c : string) (item : row) : row :=
  {| Name := Name item; Date := Date item; TestName := TestName item;
     Value := Value item; Unit := Unit item;
     ReferenceRange := ReferenceRange item; Category := Some c |}.

(* --------------------------------------------------------------------- *)
(** * clean_data                                                         *)
(* --------------------------------------------------------------------- *)

Definition VALID_UNITS : list string :=
  ["g/dL"; "mg/dL"; "mmol/L"; "IU/L"; "%"; "fl"; "pg"; "pg/mL"; "µL"; "nmol/L";
   "µIU/mL"; "mL/min/1.73m2"; "U/L"; "thou/mm3"].

Definition VALID_TEST_NAMES : list string :=
  ["Creatinine"; "GFR Estimated"; "Glucose Fasting"; "Cyanocobalamin";
   "Hemoglobin"; "RBC"; "WBC"; "Platelets"; "Cholesterol"; "25 Hydroxy";
   "T3, Total"; "T4, Total";
   "TSH"; "Phosphorus"; "Sodium"; "Potassium"; "Chloride"; "GFR Category G2";
   "Urea"; "Urea Nitrogen Blood"; "Total"; "Triglycerides"; "HDL Cholesterol";
   "Calculated"; "HDL Cholesterol";
   "Uric Acid"; "GGTP"; "00 RBC Count"; "HbA1c"; "MCV"; "MCH"; "MCHC";
   "Segmented Neutrophils";
   "Lymphocytes"; "Monocytes"; "Eosinophils"; "Basophils";
   "Absolute Leucocyte Count";
   "Neutrophils"; "Lymphocytes"; "Monocytes"; "Eosinophils"; "Basophils";
   "Platelet Count";
   "Bilirubin Direct"; "Bilirubin Total"; "Bilirubin Indirect"; "Total Protein";
   "Albumin"; "G Ratio"].

(** The test of the loop body of clean_data. *)
Definition is_valid (entry : row) : bool :=
  str_in (TestName entry) VALID_TEST_NAMES && str_in (Unit entry) VALID_UNITS.

Fixpoint clean_data (data : list row) : list row :=
  match data with
  | [] => []
  | entry :: data' =>
      if is_valid entry then entry :: clean_data data' else clean_data data'
  end.

(* --------------------------------------------------------------------- *)
(** * Regular expressions                                                *)
(* --------------------------------------------------------------------- *)

(** The fragment of re the program's patterns are written in.  Repetition
    is greedy and applies to a character class. *)
Inductive regex : Type :=
| Lit (s : string)                                   (* literal text *)
| Rep (p : ascii -> bool) (lo : nat) (hi : option nat) (* C{lo,hi}; C+ C* *)
| Seq (r1 r2 : regex)
| Alt (r1 r2 : regex)                                (* r1|r2 *)
| Opt (r : regex)                                    (* r? *)
| Grp (i : nat) (r : regex)                          (* capture group i *)
| Bnd.                                               (* \b *)

Fixpoint cat (l : list regex) : regex :=
  match l with
  | [] => Lit ""
  | [r] => r
  | r :: l' => Seq r (cat l')
  end.

Definition plus (p : ascii -> bool) : regex := Rep p 1 None.
Definition star (p : ascii -> bool) : regex := Rep p 0 None.

(** A matcher stands between [prev], the character before it, and [rest],
    the text still to read; [groups] holds the captures, latest first. *)
Record mstate : Type := mkState {
  prev : option ascii;
  rest : string;
  groups : list (nat * string)
}.

Fixpoint advance (k : nat) (st : mstate) : mstate :=
  match k, rest st with
  | S k', String c s' => advance k' (mkState (Some c) s' (groups st))
  | _, _ => st
  end.

Fixpoint take_str (k : nat) (s : string) : string :=
  match k, s with
  | S k', String c s' => String c (take_str k' s')
  | _, _ => EmptyString
  end.

Fixpoint run_length (p : ascii -> bool) (s : string) : nat :=
  match s with
  | String c s' => if p c then S (run_length p s') else 0
  | EmptyString => 0
  end.

Definition word_at (c : option ascii) : bool :=
  match c with Some a => is_word a | None => false end.

Definition next_char (s : string) : option ascii :=
  match s with String c _ => Some c | EmptyString => None end.

(** k, k-1, ..., lo *)
Fixpoint down_to (lo k : nat) : list nat :=
  if (k <? lo)%nat then []
  else match k with
       | O => [O]
       | S k' => k :: down_to lo k'
       end.

(** Every way for [r] to match at [st], in the order in which a
    backtracking matcher tries them: the head is the match re reports. *)
Fixpoint run (r : regex) (st : mstate) : list mstate :=
  match r with
  | Lit s =>
      if String.prefix s (rest st) then [advance (String.length s) st] else []
  | Rep p lo hi =>
      let n := run_length p (rest st) in
      let n' := match hi with Some h => Nat.min n h | None => n end in
      map (fun k => advance k st) (down_to lo n')
  | Seq r1 r2 => flat_map (run r2) (run r1 st)
  | Alt r1 r2 => run r1 st ++ run r2 st
  | Opt r1 => run r1 st ++ [st]
  | Grp i r1 =>
      map (fun st' =>
             let k := String.length (rest st) - String.length (rest st') in
             mkState (prev st') (rest st') ((i, take_str k (rest st)) :: groups st'))
          (run r1 st)
  | Bnd =>
      if xorb (word_at (prev st)) (word_at (next_char (rest st))) then [st] else []
  end.

(** m.group(i); '' for a group that took no part, as findall reports it. *)
Fixpoint group (i : nat) (gs : list (nat * string)) : string :=
  match gs with
  | [] => ""
  | (j, s) :: gs' => if (i =? j)%nat then s else group i gs'
  end.

(** re.match: the pattern at the start of the text; group 0 is the match. *)
Definition match_at (r : regex) (before : option ascii) (s : string)
  : option mstate :=
  head (run (Grp 0 r) (mkState before s [])).

(** re.search: the first position, from the left, where the pattern
    matches. *)
Fixpoint search_from (r : regex) (before : option ascii) (s : string)
  : option mstate :=
  match match_at r before s with
  | Some st => Some st
  | None =>
      match s with
      | String c s' => search_from r (Some c) s'
      | EmptyString => None
      end
  end.

Definition search (r : regex) (text : string) : option mstate :=
  search_from r None text.

(** re.findall: the successive non-overlapping matches, each reported by
    its captures.  After a match of n characters the scan resumes n
    characters further; [skip] counts the characters still to pass over.
    (After an empty match the scan moves on by one character; the pattern
    used below never matches the empty string.) *)
Fixpoint findall_go (r : regex) (before : option ascii) (skip : nat) (s : string)
  : list (list (nat * string)) :=
  match skip with
  | S k =>
      match s with
      | String c s' => findall_go r (Some c) k s'
      | EmptyString => []
      end
  | O =>
      match match_at r before s, s with
      | Some st, String c s' =>
          groups st ::
          findall_go r (Some c) (String.length s - String.length (rest st) - 1) s'
      | Some st, EmptyString => [groups st]
      | None, String c s' => findall_go r (Some c) 0 s'
      | None, EmptyString => []
      end
  end.

Definition findall (r : regex) (text : string) : list (list (nat * string)) :=
  findall_go r None 0 text.

(* --------------------------------------------------------------------- *)
(** * extract_all_data_from_pdf                                          *)
(* --------------------------------------------------------------------- *)

(** The class of digits, dot and comma. *)
Definition is_num_char (c : ascii) : bool :=
  is_digit c || (code c =? 46)%N || (code c =? 44)%N.

(** The class of everything but white space. *)
Definition not_space (c : ascii) : bool := negb (is_space c).

(** The dot: everything but the newline. *)
Definition not_newline (c : ascii) : bool := negb (code c =? 10)%N.

(** The pattern of a test line, piece by piece:
      ( [\w\s]+ ) :? \s+ ( [\d.,]+ ) \s* ( [^\s]* ) \s* ( .* )
    with the classes of digits and of white space taken on ASCII. *)
Definition pattern : regex :=
  cat [Grp 1 (plus (fun c => is_word c || is_space c));
       Opt (Lit ":");
       plus is_space;
       Grp 2 (plus is_num_char);
       star is_space;
       Grp 3 (star not_space);
       star is_space;
       Grp 4 (star not_newline)].

(** Name \s* : \s* (?: Mr\. | Ms\. )? \s* ( [A-Za-z]+ \s+ [A-Za-z]+ ) *)
Definition name_pattern : regex :=
  cat [Lit "Name"; star is_space; Lit ":"; star is_space;
       Opt (Alt (Lit "Mr.") (Lit "Ms."));
       star is_space;
       Grp 1 (cat [plus is_alpha; plus is_space; plus is_alpha])].

(** \b \d{1,2} \/ \d{1,2} \/ \d{4} \b, with the digits of ASCII. *)
Definition date_pattern : regex :=
  cat [Bnd; Rep is_digit 1 (Some 2); Lit "/"; Rep is_digit 1 (Some 2); Lit "/";
       Rep is_digit 4 (Some 4); Bnd].

(** The document is given by the text of its pages, as the page reader
    returns them. *)
Definition extract_all_data_from_pdf (pages : list string) : list row :=
  let text := fold_left String.append pages "" in
  let matches := findall pattern text in
  let patient_name :=
    match search name_pattern text with
    | Some name_match => Some (group 1 (groups name_match))
    | None => None
    end in
  let collection_date :=
    match search date_pattern text with
    | Some date_match => Some (group 0 (groups date_match))
    | None => None
    end in
  let extracted_data :=
    map (fun m =>
           {| Name := patient_name;
              Date := collection_date;
              TestName := strip (group 1 m);
              Value := strip (group 2 m);
              Unit := strip (group 3 m);
              ReferenceRange := strip (group 4 m);
              Category := None |})
        matches in
  clean_data extracted_data.

(* --------------------------------------------------------------------- *)
(** * handle_upload                                                      *)
(* --------------------------------------------------------------------- *)

(** An entry of the patient drop-down: {'label': name, 'value': name}. *)
Record dropdown_option : Type := mkOption {
  opt_label : string;
  opt_value : string
}.

(** The truth value of a name: None and '' are false. *)
Definition truthy (name : option string) : bool :=
  match name with
  | Some (String _ _) => true
  | _ => false
  end.

Definition table_columns : list string :=
  ["Name"; "Date"; "Test Name"; "Value"; "Unit"; "Reference Range"].

(** The four outputs of the callback: the feedback message, the rows and
    the columns of the table, and the options of the drop-down.  An
    uploaded file is given by the text of its pages; [contents] is None
    before the first upload.  The set of names is a [gset], listed in the
    arbitrary order of [elements], as list(set(...)) lists it in hash
    order. *)
Definition handle_upload (contents : option (list (list string))) (filenames : list string)
  : string * list row * list string * list dropdown_option :=
  match contents with
  | None => ("No file uploaded yet.", [], [], [])
  | Some contents =>
      let feedback_message :=
        ("Uploaded " ++ pretty (length contents) ++ " file(s): "
         ++ join ", " filenames)%string in
      let files_data :=
        flat_map (fun cf => extract_all_data_from_pdf (fst cf))
                 (combine contents filenames) in
      match files_data with
      | [] => (feedback_message, [], [], [])
      | _ :: _ =>
          let table_data :=
            map (fun entry =>
                   {| Name := Name entry;
                      Date := Date entry;
                      TestName := TestName entry;
                      Value := Value entry;
                      Unit := Unit entry;
                      ReferenceRange := ReferenceRange entry;
                      Category := None |})
                files_data in
          let unique_names : list (option string) :=
            elements (list_to_set (map Name files_data) : gset (option string)) in
          let dropdown_name_options :=
            flat_map (fun name =>
                        match name with
                        | Some n => if truthy name then [mkOption n n] else []
                        | None => []
                        end)
                     unique_names in
          (feedback_message, table_data, table_columns, dropdown_name_options)
      end
  end.

(* --------------------------------------------------------------------- *)
(** * analyze_test_results                                               *)
(* --------------------------------------------------------------------- *)

(** The body of the loop: the category of one item, or the exception the
    body raises. *)
Definition classify (item : row) : result string :=
  let* value := float (Value item) in
  if (length (split "-" (ReferenceRange item)) =? 2)%nat then
    let* low := float (strip (nth 0 (split "-" (ReferenceRange item)) "")) in
    let* high := float (strip (nth 1 (split "-" (ReferenceRange item)) "")) in
    if flt value low then Ok "Low"
    else if fgt value high then Ok "High"
    else Ok "Normal"
  else
    let* sign := first_char (ReferenceRange item) in
    if Ascii.eqb sign "<" then
      let* threshold := float (tail (ReferenceRange item)) in
      if fgt value threshold then Ok "High" else Ok "Normal"
    else
      let* threshold := float (tail (ReferenceRange item)) in
      if flt value threshold then Ok "Low" else Ok "Normal".

(** The items are dictionaries, which the loop updates in place.  The
    store holds the objects; a reference is the index of a live object,
    a [nat]. *)
Abbreviation store := (list row).

Global Instance row_inhabited : Inhabited row :=
  populate (mkRow None None "" "" "" "" None).

(** for item in data: ...; item['Category'] = ...
    The result is the store when the loop ends or is left by an
    exception, and that exception if any. *)
Fixpoint analyze_loop (data : list nat) (h : store) : store * option exn :=
  match data with
  | [] => (h, None)
  | item :: data' =>
      match classify (h !!! item) with
      | Ok c => analyze_loop data' (<[item := set_Category c (h !!! item)]> h)
      | Raise e => (h, Some e)
      end
  end.

Definition analyze_columns : list string :=
  ["Name"; "Date"; "Test Name"; "Value"; "Unit"; "Reference Range"; "Category"].

(** The callback: it returns [data] itself, the list it was given. *)
Definition analyze_test_results (data : list nat) (h : store)
  : store * result (list nat * list string) :=
  match analyze_loop data h with
  | (h', None) => (h', Ok (data, analyze_columns))
  | (h', Some e) => (h', Raise e)
  end.

(** The callback as the table sees it: the rows of the table are handed
    over as objects of their own, and the rows returned are read back. *)
Definition analyze_table (table_data : list row) : result (list row) :=
  match analyze_test_results (seq 0 (length table_data)) table_data with
  | (h', Ok (data, _)) => Ok (map (fun item => h' !!! item) data)
  | (_, Raise e) => Raise e
  end.

(* --------------------------------------------------------------------- *)
(** * datetime.strptime(date, '%d/%m/%Y')                                *)
(* --------------------------------------------------------------------- *)

Record datetime : Type := mkDate {
  year : Z;
  month : Z;
  day : Z
}.

Definition one (p : ascii -> bool) : regex := Rep p 1 (Some 1).

Fixpoint alts (l : list regex) : regex :=
  match l with
  | [] => Lit ""
  | [r] => r
  | r :: l' => Alt r (alts l')
  end.

(** What the directives stand for: %d is 3[0-1]|[1-2]\d|0[1-9]|[1-9]| [1-9],
    %m is 1[0-2]|0[1-9]|[1-9] and %Y is \d\d\d\d. *)
Definition directive_d : regex :=
  alts [Seq (Lit "3") (one (in_range "0" "1"));
        Seq (one (in_range "1" "2")) (one is_digit);
        Seq (Lit "0") (one (in_range "1" "9"));
        one (in_range "1" "9");
        Seq (Lit " ") (one (in_range "1" "9"))].

Definition directive_m : regex :=
  alts [Seq (Lit "1") (one (in_range "0" "2"));
        Seq (Lit "0") (one (in_range "1" "9"));
        one (in_range "1" "9")].

Definition directive_Y : regex := Rep is_digit 4 (Some 4).

Definition format_regex : regex :=
  cat [Grp 1 directive_d; Lit "/"; Grp 2 directive_m; Lit "/"; Grp 3 directive_Y].

(** int(s), for the text of a directive *)
Definition int_of (s : string) : Z := digits_val 0 (strip s).

Definition is_leap (y : Z) : bool :=
  ((y mod 4 =? 0) && negb (y mod 100 =? 0) || (y mod 400 =? 0))%Z.

Definition days_in_month (y m : Z) : Z :=
  (if m =? 2 then (if is_leap y then 29 else 28)
   else if (m =? 4) || (m =? 6) || (m =? 9) || (m =? 11) then 30
   else 31)%Z.

(** The text must match the format from its start and leave nothing
    over, and the day must exist in the calendar. *)
Definition strptime (date : option string) : result datetime :=
  match date with
  | None => Raise TypeError
  | Some s =>
      match match_at format_regex None s with
      | None => Raise ValueError
      | Some found =>
          match rest found with
          | String _ _ => Raise ValueError
          | EmptyString =>
              let y := int_of (group 3 (groups found)) in
              let m := int_of (group 2 (groups found)) in
              let d := int_of (group 1 (groups found)) in
              if ((y <? 1) || (days_in_month y m <? d))%Z then Raise ValueError
              else Ok (mkDate y m d)
          end
      end
  end.

(** a < b on datetimes (the time of day is midnight for all of them). *)
Definition dt_ltb (a b : datetime) : bool :=
  ((year a <? year b)
   || (year a =? year b) && ((month a <? month b)
                             || (month a =? month b) && (day a <? day b)))%Z.

(* --------------------------------------------------------------------- *)
(** * sorted(..., key=lambda x: x[0], reverse=True)                      *)
(* --------------------------------------------------------------------- *)

(** The sort is stable, also when reversed: elements with equal keys keep
    the order they came in.  That fixes the result, which is computed
    here by insertion from the right. *)
Fixpoint insert_desc {A : Type} (x : datetime * A) (l : list (datetime * A))
  : list (datetime * A) :=
  match l with
  | [] => [x]
  | y :: l' => if dt_ltb (fst x) (fst y) then y :: insert_desc x l' else x :: l
  end.

Fixpoint sorted_reverse {A : Type} (l : list (datetime * A)) : list (datetime * A) :=
  match l with
  | [] => []
  | x :: l' => insert_desc x (sorted_reverse l')
  end.

(* --------------------------------------------------------------------- *)
(** * update_charts                                                      *)
(* --------------------------------------------------------------------- *)

(** The three lists kept for a patient and a test. *)
Record test_lists : Type := mkLists {
  values : list pyfloat;
  dates : list (option string);
  range : list string
}.

Definition no_lists : test_lists := mkLists [] [] [].

(** A dictionary with str keys, in the order in which the keys came. *)
Definition dict (V : Type) : Type := list (string * V).

Fixpoint get {V : Type} (k : string) (d : dict V) : option V :=
  match d with
  | [] => None
  | (k', v) :: d' => if String.eqb k k' then Some v else get k d'
  end.

(** d[k] = f(d[k]), a missing key standing for [dflt], as in a
    defaultdict. *)
Fixpoint update {V : Type} (dflt : V) (k : string) (f : V -> V) (d : dict V) : dict V :=
  match d with
  | [] => [(k, f dflt)]
  | (k', v) :: d' =>
      if String.eqb k k' then (k', f v) :: d' else (k', v) :: update dflt k f d'
  end.

Definition keys {V : Type} (d : dict V) : list string := map fst d.

(** Patient -> Test -> Values/Dates *)
Definition test_data_t : Type := dict (dict test_lists).

(** row['Name'] in selected_names, the selected names being strings *)
Definition name_in (name : option string) (selected_names : list string) : bool :=
  match name with
  | Some n => str_in n selected_names
  | None => false
  end.

(** The body of the first loop. *)
Definition add_row (selected_names : list string) (test_data : test_data_t) (r : row)
  : result test_data_t :=
  match Name r with
  | Some name =>
      if str_in name selected_names then
        let test_name := TestName r in
        if negb (String.eqb (Value r) "N/A") then
          let* test_value := float (Value r) in
          Ok (update [] name
                (update no_lists test_name
                   (fun l => mkLists (values l ++ [test_value])
                                     (dates l ++ [Date r])
                                     (range l ++ [ReferenceRange r])))
                test_data)
        else Ok test_data
      else Ok test_data
  | None => Ok test_data
  end.

(** A value given as the height of a reference line: a str or a float. *)
Inductive bound : Type :=
| BStr (s : string)
| BNum (x : pyfloat).

(** What is drawn for one patient in the figure of one test: the line
    through the sorted points and the two reference lines, which span the
    dates of the line.  (The colours are left out.) *)
Record scatter : Type := mkScatter {
  sc_name : string;
  sc_x : list datetime;
  sc_y : list pyfloat;
  sc_low : bound;
  sc_high : bound;
  sc_x0 : datetime;
  sc_x1 : datetime
}.

Record figure : Type := mkFigure {
  fig_title : string;
  fig_data : list scatter
}.

(** min and max of a non-empty tuple of dates *)
Definition min_date (d : datetime) (l : list datetime) : datetime :=
  fold_left (fun m e => if dt_ltb e m then e else m) l d.

Definition max_date (d : datetime) (l : list datetime) : datetime :=
  fold_left (fun m e => if dt_ltb m e then e else m) l d.

(** The body of the inner loop, for a patient who has the test. *)
Definition make_scatter (patient_name : string) (l : test_lists) : result scatter :=
  let* parsed := traverse strptime (dates l) in
  let sorted_data := sorted_reverse (combine parsed (values l)) in
  match sorted_data with
  | [] => Raise ValueError
  | first :: _ =>
      let sorted_dates := map fst sorted_data in
      let sorted_values := map snd sorted_data in
      match range l with
      | [] => Raise IndexError
      | range0 :: _ =>
          let ref := split " - " range0 in
          let* low_high :=
            if (length ref =? 2)%nat then
              Ok (BStr (nth 0 (split " - " range0) ""),
                  BStr (nth 1 (split " - " range0) ""))
            else
              let* h := float (tail (nth 0 (split " - " range0) "")) in
              Ok (BStr (nth 0 (split " - " range0) ""), BNum h) in
          Ok {| sc_name := patient_name;
                sc_x := sorted_dates;
                sc_y := sorted_values;
                sc_low := fst low_high;
                sc_high := snd low_high;
                sc_x0 := min_date (fst first) sorted_dates;
                sc_x1 := max_date (fst first) sorted_dates |}
      end
  end.

(** The figure of one test: a line for every selected patient who has
    it. *)
Fixpoint add_scatters (test_data : test_data_t) (test_name : string)
    (selected_names : list string) : result (list scatter) :=
  match selected_names with
  | [] => Ok []
  | patient_name :: selected_names' =>
      match get test_name (default [] (get patient_name test_data)) with
      | Some l =>
          let* s := make_scatter patient_name l in
          let* ss := add_scatters test_data test_name selected_names' in
          Ok (s :: ss)
      | None => add_scatters test_data test_name selected_names'
      end
  end.

(** The callback; an empty list also stands for no selection and for no
    table. *)
Definition update_charts (selected_names : list string) (table_data : list row)
  : result (list figure) :=
  match selected_names, table_data with
  | [], _ | _, [] => Ok []
  | first_patient :: _, _ :: _ =>
      let* test_data := foldM (add_row selected_names) table_data [] in
      traverse (fun test_name =>
                  let* scatters := add_scatters test_data test_name selected_names in
                  Ok (mkFigure test_name scatters))
               (keys (default [] (get first_patient test_data)))
  end.

(* --------------------------------------------------------------------- *)
(** * The classification, piece by piece                                 *)
(* --------------------------------------------------------------------- *)

Inductive op : Type := LessThan | GreaterThan.

Inductive reference_range : Type :=
| Bounded (low high : pyfloat)
| OneSided (o : op) (threshold : pyfloat).

Inductive category : Type := Low | Normal | High.

Definition category_name (c : category) : string :=
  match c with
  | Low => "Low"
  | Normal => "Normal"
  | High => "High"
  end.

(** The range [classify] reads from the text of a reference range: the
    tests and conversions of its two branches, without the comparisons. *)
Definition parse_range (s : string) : result reference_range :=
  if (length (split "-" s) =? 2)%nat then
    let* low := float (strip (nth 0 (split "-" s) "")) in
    let* high := float (strip (nth 1 (split "-" s) "")) in
    Ok (Bounded low high)
  else
    let* sign := first_char s in
    if Ascii.eqb sign "<" then
      let* threshold := float (tail s) in Ok (OneSided LessThan threshold)
    else
      let* threshold := float (tail s) in Ok (OneSided GreaterThan threshold).

(** The classification policy of the specification: for a bounded range,
    value < low is Low, value > high is High, else Normal; for a less-than
    range, value > threshold is High, else Normal; for a greater-than
    range, value < threshold is Low, else Normal. *)
Definition policy (r : reference_range) (v : pyfloat) : category :=
  match r with
  | Bounded low high =>
      if flt v low then Low else if fgt v high then High else Normal
  | OneSided LessThan threshold => if fgt v threshold then High else Normal
  | OneSided GreaterThan threshold => if flt v threshold then Low else Normal
  end.

(** A non-empty trimmed numeric part: the number it reads as, if any. *)
Definition numeric_part (s : string) : option pyfloat :=
  match strip s with
  | EmptyString => None
  | String _ _ as t =>
      match float t with
      | Ok v => Some v
      | Raise _ => None
      end
  end.

(** The parsing policy of the specification.  Step 1: split on the
    dash; two non-empty trimmed numeric parts make a bounded range.
    Step 2, otherwise: the first character decides, '<' for less-than and
    anything else for greater-than, the rest of the text being the
    threshold. *)
Definition spec_one_sided (s : string) : result reference_range :=
  let* sign := first_char s in
  let* threshold := float (tail s) in
  Ok (OneSided (if Ascii.eqb sign "<" then LessThan else GreaterThan) threshold).

Definition spec_parse_range (s : string) : result reference_range :=
  match split "-" s with
  | [a; b] =>
      match numeric_part a, numeric_part b with
      | Some low, Some high => Ok (Bounded low high)
      | _, _ => spec_one_sided s
      end
  | _ => spec_one_sided s
  end.

(** Why an observation cannot be classified, and what is raised for it:
    its value is not a number; its value is a number and its reference
    range is empty; its value is a number and a bound of its reference
    range, which is not empty, is not one. *)
Inductive unclassifiable (r : row) : exn -> Prop :=
| bad_value :
    float (Value r) = Raise ValueError -> unclassifiable r ValueError
| empty_range (v : pyfloat) :
    float (Value r) = Ok v -> ReferenceRange r = "" ->
    unclassifiable r IndexError
| bad_bound (v : pyfloat) :
    float (Value r) = Ok v -> ReferenceRange r ≠ "" ->
    parse_range (ReferenceRange r) = Raise ValueError ->
    unclassifiable r ValueError.

(** The number of occurrences of a character in a text. *)
Fixpoint count_char (c : ascii) (s : string) : nat :=
  match s with
  | String d s' => (if Ascii.eqb c d then 1 else 0) + count_char c s'
  | EmptyString => 0
  end.

(** The six fields a record has from the start, all but 'Category'. *)
Definition six (r : row) : option string * option string * string * string * string * string :=
  (Name r, Date r, TestName r, Value r, Unit r, ReferenceRange r).

(** The whole pipeline for one uploaded document: extraction and
    validation in handle_upload, whose rows fill the table, then the
    classification, which takes the rows of the table as its input. *)
Definition pipeline (pages : list string) : result (list row) :=
  let '(_, table_data, _, _) := handle_upload (Some [pages]) ["report.pdf"] in
  analyze_table table_data.

(** The least number of characters a match of the pattern takes. *)
Fixpoint minlen (r : regex) : nat :=
  match r with
  | Lit s => String.length s
  | Rep _ lo _ => lo
  | Seq r1 r2 => minlen r1 + minlen r2
  | Alt r1 r2 => Nat.min (minlen r1) (minlen r2)
  | Opt _ => 0
  | Grp _ r1 => minlen r1
  | Bnd => 0
  end.

(** The text of a page, given by its lines. *)
Definition nl : string := String (ascii_of_nat 10) "".

Definition document (lines : list string) : string := join nl lines.

(** A row with a patient name. *)
Definition named (r : row) : bool :=
  match Name r with Some _ => true | None => false end.

(** The options of the drop-down for a list of names: one for every name
    that is neither None nor empty. *)
Definition options_of (names : list (option string)) : list dropdown_option :=
  flat_map (fun name =>
              match name with
              | Some n => if truthy name then [mkOption n n] else []
              | None => []
              end)
           names.

(* --------------------------------------------------------------------- *)
(** * The charts, piece by piece                                         *)
(* --------------------------------------------------------------------- *)

(** A row counts for a patient and a test when it has that name and that
    test name and a value other than 'N/A'. *)
Definition counts_for (p t : string) (r : row) : bool :=
  match Name r with
  | Some n => String.eqb n p
  | None => false
  end
  && String.eqb (TestName r) t
  && negb (String.eqb (Value r) "N/A").

(** The observations of a patient and a test, in the order of the
    table. *)
Definition observations (rows : list row) (p t : string) : list row :=
  List.filter (counts_for p t) rows.

(** The lists kept for a patient and a test, if any. *)
Definition lists_at (p t : string) (test_data : test_data_t) : option test_lists :=
  get t (default [] (get p test_data)).

Definition app_lists (l1 l2 : test_lists) : test_lists :=
  mkLists (values l1 ++ values l2) (dates l1 ++ dates l2) (range l1 ++ range l2).

(** The pair of reference lines [make_scatter] reads from the text of a
    reference range. *)
Definition reference_bounds (range0 : string) : result (bound * bound) :=
  if (length (split " - " range0) =? 2)%nat then
    Ok (BStr (nth 0 (split " - " range0) ""), BStr (nth 1 (split " - " range0) ""))
  else
    let* h := float (tail (nth 0 (split " - " range0) "")) in
    Ok (BStr (nth 0 (split " - " range0) ""), BNum h).

(** a < b on datetimes, as a proposition. *)
Definition dt_lt (a b : datetime) : Prop :=
  (year a < year b
   ∨ year a = year b ∧ (month a < month b ∨ month a = month b ∧ day a < day b))%Z.

(** Newest first: no date stands before a later one. *)
Definition newest_first (l : list datetime) : Prop :=
  StronglySorted (fun a b => ¬ dt_lt a b) l.

(** Whether a patient has an observation of a test. *)
Definition has_observation (rows : list row) (t p : string) : bool :=
  match observations rows p t with
  | [] => false
  | _ :: _ => true
  end.

(** The three lists of a sequence of observations whose values are
    [vs]. *)
Definition lists_of (vs : list pyfloat) (obs : list row) : test_lists :=
  mkLists vs (map Date obs) (map ReferenceRange obs).

(** The keys of the dictionary of a patient come once each. *)
Definition keys_once (td : test_data_t) : Prop :=
  ∀ p d, get p td = Some d -> NoDup (keys d).

(** A pattern without capture groups. *)
Fixpoint no_groups (r : regex) : bool :=
  match r with
  | Lit _ | Rep _ _ _ | Bnd => true
  | Seq r1 r2 | Alt r1 r2 => no_groups r1 && no_groups r2
  | Opt r1 => no_groups r1
  | Grp _ _ => false
  end.

(** The text of a date: day, month and year between slashes. *)
Definition dmy (sd sm sy : string) : string := (sd ++ "/" ++ sm ++ "/" ++ sy)%string.

(** Rows of a table, for the examples: two results of one patient for
    the same test, the later one first in the table, and a result of
    another patient for another test. *)
Definition asha_2023 : row :=
  mkRow (Some "Asha Rao") (Some "12/03/2023") "Hemoglobin" "13.5" "g/dL" "13.0 - 17.0" None.

Definition asha_2020 : row :=
  mkRow (Some "Asha Rao") (Some "01/01/2020") "Hemoglobin" "12.5" "g/dL" "12.0 - 16.0" None.

Definition ben_2021 : row :=
  mkRow (Some "Ben Roy") (Some "05/06/2021") "TSH" "6.1" "µIU/mL" "<4.5" None.

(* --------------------------------------------------------------------- *)
(** * Further notions for the properties of the code                     *)
(* --------------------------------------------------------------------- *)

(** Low before Normal before High. *)
Definition rank (c : string) : nat :=
  if String.eqb c "Low" then 0 else if String.eqb c "High" then 2 else 1.

(** Every character of a text is in a class; some character is. *)
Fixpoint string_forall (p : ascii -> bool) (s : string) : bool :=
  match s with
  | String c s' => p c && string_forall p s'
  | EmptyString => true
  end.




(** The text of a document, as the extraction reads it. *)
Definition text_of (pages : list string) : string := fold_left String.append pages "".

(** A row counts for a selection when its patient is selected and its
    value is not 'N/A'. *)
Definition counts (selected_names : list string) (r : row) : bool :=
  name_in (Name r) selected_names && negb (String.eqb (Value r) "N/A").

(** The tests of a patient, in the order of the table. *)
Definition tests_of (rows : list row) (p : string) : list string :=
  map TestName
      (List.filter (fun r => match Name r with
                             | Some n => String.eqb n p
                             | None => false
                             end && negb (String.eqb (Value r) "N/A"))
                   rows).

(** A list of names without its repetitions, each name where it comes
    first. *)
Fixpoint first_occurrences (l : list string) : list string :=
  match l with
  | [] => []
  | t :: l' => t :: List.filter (fun u => negb (String.eqb u t)) (first_occurrences l')
  end.

(** a == b on datetimes *)
Definition dt_eqb (a b : datetime) : bool :=
  ((year a =? year b) && (month a =? month b) && (day a =? day b))%Z.

(** The name and the date the extraction finds in a document. *)
Definition document_name (pages : list string) : option string :=
  match search name_pattern (text_of pages) with
  | Some name_match => Some (group 1 (groups name_match))
  | None => None
  end.

Definition document_date (pages : list string) : option string :=
  match search date_pattern (text_of pages) with
  | Some date_match => Some (group 0 (groups date_match))
  | None => None
  end.

(** The keys of a dictionary after the insertion of a sequence of keys:
    a new key goes to the end. *)
Definition add_keys (ks : list string) (l : list string) : list string :=
  fold_left (fun ks t => if str_in t ks then ks else ks ++ [t]) l ks.

(** A row is fit for the charts when its value converts, its date is
    one strptime accepts and the reference lines can be read from its
    reference range. *)
Definition chartable (r : row) : Prop :=
  (∃ v, float (Value r) = Ok v)
  ∧ (∃ d, strptime (Date r) = Ok d)
  ∧ (∃ b, reference_bounds (ReferenceRange r) = Ok b).

(* ===================================================================== *)
(** * Properties of the validator                                        *)
(* ===================================================================== *)

Lemma str_in_elem_of (x : string) (l : list string) :
  str_in x l = true <-> x ∈ l.
Proof.
  unfold str_in. rewrite existsb_exists. split.
  - intros (y & Hy & Heq). apply String.eqb_eq in Heq. subst y.
    by apply list_elem_of_In.
  - intros Hx. exists x. split; [by apply list_elem_of_In | apply String.eqb_refl].
Qed.

Lemma is_valid_spec (entry : row) :
  is_valid entry = true <->
  TestName entry ∈ VALID_TEST_NAMES ∧ Unit entry ∈ VALID_UNITS.
Proof.
  unfold is_valid. rewrite andb_true_iff, !str_in_elem_of. tauto.
Qed.

Lemma clean_data_sublist (data : list row) : sublist (clean_data data) data.
Proof.
  induction data as [|entry data IH]; [constructor|].
  cbn [clean_data]. destruct (is_valid entry); by constructor.
Qed.

(** C2: the validator returns exactly the entries, in their order and as
    they are, whose 'Test Name' is in VALID_TEST_NAMES and whose 'Unit' is
    in VALID_UNITS, membership being equality of strings; so every entry
    it returns has both memberships, and the letter case matters. *)
Theorem clean_data_is_the_allow_list_filter (data : list row) :
  clean_data data
  = filter (λ entry, TestName entry ∈ VALID_TEST_NAMES ∧ Unit entry ∈ VALID_UNITS) data
  ∧ sublist (clean_data data) data
  ∧ Forall (λ entry, TestName entry ∈ VALID_TEST_NAMES ∧ Unit entry ∈ VALID_UNITS)
           (clean_data data)
  ∧ clean_data [mkRow None None "hemoglobin" "13.5" "g/dL" "13.0 - 17.0" None] = [].
Proof.
  assert (Hfilter : clean_data data
    = filter (λ entry, TestName entry ∈ VALID_TEST_NAMES ∧ Unit entry ∈ VALID_UNITS) data).
  { induction data as [|entry data IH]; [done|].
    cbn [clean_data]. rewrite filter_cons.
    destruct (is_valid entry) eqn:Hv.
    - apply is_valid_spec in Hv. rewrite decide_True by done. by f_equal.
    - rewrite decide_False; [done|]. intros Hin. apply is_valid_spec in Hin. congruence. }
  split; [done|]. rewrite Hfilter.
  split; [apply sublist_filter|].
  split; [|reflexivity].
  apply List.Forall_forall. intros entry Hin. apply list_elem_of_In in Hin.
  by apply list_elem_of_filter in Hin as [? _].
Qed.

(* ===================================================================== *)
(** * Properties of the classification                                   *)
(* ===================================================================== *)

Lemma float_raises_ValueError (s : string) (e : exn) :
  float s = Raise e -> e = ValueError.
Proof.
  unfold float. destruct (strip_underscores _ _) as [u|]; [|congruence].
  destruct (parse_float u); congruence.
Qed.

(** [classify] converts the value, reads the range and compares, in that
    order. *)
Lemma classify_decompose (item : row) :
  classify item =
  let* v := float (Value item) in
  let* r := parse_range (ReferenceRange item) in
  Ok (category_name (policy r v)).
Proof.
  unfold classify, parse_range.
  destruct (float (Value item)) as [v|e]; simpl; [|done].
  destruct (length (split "-" (ReferenceRange item)) =? 2)%nat.
  - destruct (float (strip (nth 0 _ _))) as [lo|]; simpl; [|done].
    destruct (float (strip (nth 1 _ _))) as [hi|]; simpl; [|done].
    destruct (flt v lo); [done|]. by destruct (fgt v hi).
  - destruct (first_char (ReferenceRange item)) as [sign|]; simpl; [|done].
    destruct (Ascii.eqb sign "<");
      (destruct (float (tail (ReferenceRange item))) as [t|]; simpl; [|done]).
    + by destruct (fgt v t).
    + by destruct (flt v t).
Qed.

Lemma classify_six (r r' : row) : six r = six r' -> classify r = classify r'.
Proof.
  unfold six. intros [= _ _ _ Hv _ Hr]. unfold classify. by rewrite Hv, Hr.
Qed.

(** Away from NaN the order of floats is total. *)
Lemma flt_false_iff_fle (a b : pyfloat) :
  is_nan a = false -> is_nan b = false -> (flt a b = false <-> fle b a = true).
Proof.
  destruct a as [x|n|], b as [y|m|]; simpl; try done; intros _ _.
  - by rewrite negb_false_iff.
  - destruct m; simpl; split; congruence.
  - destruct n; simpl; split; congruence.
  - destruct n, m; simpl; split; congruence.
Qed.

Lemma policy_bounded (v lo hi : pyfloat) :
  let c := category_name (policy (Bounded lo hi) v) in
  (c = "Low" <-> flt v lo = true)
  ∧ (c = "High" <-> flt v lo = false ∧ fgt v hi = true)
  ∧ (c = "Normal" <-> flt v lo = false ∧ fgt v hi = false)
  ∧ (is_nan v = false -> is_nan lo = false -> is_nan hi = false ->
     (c = "Normal" <-> fle lo v = true ∧ fle v hi = true)).
Proof.
  simpl. split; [|split; [|split]].
  - destruct (flt v lo), (fgt v hi); simpl; intuition congruence.
  - destruct (flt v lo), (fgt v hi); simpl; intuition congruence.
  - destruct (flt v lo), (fgt v hi); simpl; intuition congruence.
  - intros Hnv Hnlo Hnhi.
    rewrite <- (flt_false_iff_fle v lo), <- (flt_false_iff_fle hi v) by done.
    unfold fgt. destruct (flt v lo), (flt hi v); simpl; intuition congruence.
Qed.

Lemma policy_less_than (v t : pyfloat) :
  let c := category_name (policy (OneSided LessThan t) v) in
  (c = "High" <-> fgt v t = true) ∧ (c = "Normal" <-> fgt v t = false) ∧ c ≠ "Low".
Proof. simpl. destruct (fgt v t); simpl; intuition congruence. Qed.

Lemma policy_greater_than (v t : pyfloat) :
  let c := category_name (policy (OneSided GreaterThan t) v) in
  (c = "Low" <-> flt v t = true) ∧ (c = "Normal" <-> flt v t = false) ∧ c ≠ "High".
Proof. simpl. destruct (flt v t); simpl; intuition congruence. Qed.

(** C1: when an item is classified, its category is the one the policy
    gives for the value and the range read from the item.  For a bounded
    range the category is Normal exactly when low <= value <= high,
    provided none of the three is a NaN; for a range that starts with '<'
    it is High exactly when value > threshold, Normal otherwise and never
    Low; for any other first character it is Low exactly when
    value < threshold, Normal otherwise and never High. *)
Theorem classify_follows_policy (item : row) (c : string) :
  classify item = Ok c ->
  ∃ (v : pyfloat) (r : reference_range),
    float (Value item) = Ok v
    ∧ parse_range (ReferenceRange item) = Ok r
    ∧ c = category_name (policy r v)
    ∧ match r with
      | Bounded lo hi =>
          (c = "Low" <-> flt v lo = true)
          ∧ (c = "High" <-> flt v lo = false ∧ fgt v hi = true)
          ∧ (c = "Normal" <-> flt v lo = false ∧ fgt v hi = false)
          ∧ (is_nan v = false -> is_nan lo = false -> is_nan hi = false ->
             (c = "Normal" <-> fle lo v = true ∧ fle v hi = true))
      | OneSided LessThan t =>
          first_char (ReferenceRange item) = Ok "<"%char
          ∧ (c = "High" <-> fgt v t = true)
          ∧ (c = "Normal" <-> fgt v t = false)
          ∧ c ≠ "Low"
      | OneSided GreaterThan t =>
          (∃ sign, first_char (ReferenceRange item) = Ok sign ∧ sign ≠ "<"%char)
          ∧ (c = "Low" <-> flt v t = true)
          ∧ (c = "Normal" <-> flt v t = false)
          ∧ c ≠ "High"
      end.
Proof.
  rewrite classify_decompose.
  destruct (float (Value item)) as [v|] eqn:Hv; simpl; [|done].
  destruct (parse_range (ReferenceRange item)) as [r|] eqn:Hr; simpl; [|done].
  intros [= <-]. exists v, r. split; [done|]. split; [done|]. split; [done|].
  destruct r as [lo hi|[|] t].
  - apply policy_bounded.
  - split; [|apply policy_less_than].
    unfold parse_range in Hr.
    destruct (length _ =? 2)%nat.
    + destruct (float (strip (nth 0 _ _))); simpl in Hr; [|done].
      by destruct (float (strip (nth 1 _ _))).
    + destruct (first_char _) as [sign|]; simpl in Hr; [|done].
      destruct (Ascii.eqb sign "<") eqn:Hs.
      * apply Ascii.eqb_eq in Hs. by subst.
      * by destruct (float (tail _)).
  - split; [|apply policy_greater_than].
    unfold parse_range in Hr.
    destruct (length _ =? 2)%nat.
    + destruct (float (strip (nth 0 _ _))); simpl in Hr; [|done].
      by destruct (float (strip (nth 1 _ _))).
    + destruct (first_char _) as [sign|]; simpl in Hr; [|done].
      destruct (Ascii.eqb sign "<") eqn:Hs.
      * by destruct (float (tail _)).
      * exists sign. split; [done|]. by apply Ascii.eqb_neq.
Qed.

(** C1, on an item: Hemoglobin 13.5 against 13.0 - 17.0 is Normal. *)
Lemma classify_follows_policy_witness :
  classify (mkRow (Some "John Smith") (Some "12/03/2023") "Hemoglobin" "13.5"
                  "g/dL" "13.0 - 17.0" None) = Ok "Normal"
  ∧ ∃ (v : pyfloat) (r : reference_range),
      float "13.5" = Ok v ∧ parse_range "13.0 - 17.0" = Ok r
      ∧ "Normal" = category_name (policy r v).
Proof.
  split; [reflexivity|].
  destruct (classify_follows_policy
              (mkRow (Some "John Smith") (Some "12/03/2023") "Hemoglobin" "13.5"
                     "g/dL" "13.0 - 17.0" None) "Normal" eq_refl)
    as (v & r & Hv & Hr & Hc & _).
  exists v, r. auto.
Defined.

(** C1 as stated fails on a bound that reads as a NaN: 13.5 against
    nan - 17.0 is a bounded range and the category is Normal, yet
    low <= value does not hold. *)
Lemma nan_bound_normal_without_low_le_value :
  let item := mkRow None None "Hemoglobin" "13.5" "g/dL" "nan - 17.0" None in
  classify item = Ok "Normal"
  ∧ float (Value item) = Ok (Fin 13.5)
  ∧ parse_range (ReferenceRange item) = Ok (Bounded NaN (Fin 17.0))
  ∧ ¬ ("Normal" = "Normal" <-> fle NaN (Fin 13.5) = true ∧ fle (Fin 13.5) (Fin 17.0) = true).
Proof.
  repeat split; try reflexivity.
  intros [H _]. destruct (H eq_refl) as [Hle _]. simpl in Hle. discriminate.
Qed.

(* --------------------------------------------------------------------- *)
(** ** Which branch reads the range                                      *)
(* --------------------------------------------------------------------- *)

Lemma split_dash_length (cur s : string) :
  length (split_go "-" cur 0 s) = S (count_char "-" s).
Proof.
  revert cur. induction s as [|c s IH]; intros cur; [done|].
  cbn [split_go count_char String.prefix String.length].
  destruct (ascii_dec "-" c) as [<-|Hne].
  - rewrite Ascii.eqb_refl. replace (String.prefix "" s) with true by (by destruct s).
    cbn [length Nat.sub Nat.add]. by rewrite IH.
  - apply Ascii.eqb_neq in Hne. rewrite Hne. apply IH.
Qed.

Lemma split_two_parts (sep s : string) :
  length (split sep s) = 2 ->
  split sep s = [nth 0 (split sep s) ""; nth 1 (split sep s) ""].
Proof. by destruct (split sep s) as [|a [|b [|? ?]]]. Qed.

Lemma parse_range_one_sided (s : string) :
  length (split "-" s) ≠ 2 -> parse_range s = spec_one_sided s.
Proof.
  intros Hlen. unfold parse_range, spec_one_sided.
  apply Nat.eqb_neq in Hlen. rewrite Hlen.
  destruct (first_char s) as [sign|]; simpl; [|done].
  by destruct (Ascii.eqb sign "<").
Qed.

Lemma numeric_part_float (a : string) (v : pyfloat) :
  float (strip a) = Ok v -> numeric_part a = Some v.
Proof.
  unfold numeric_part. destruct (strip a) eqn:Hs; [by vm_compute|].
  by intros ->.
Qed.

Lemma numeric_part_None (a : string) :
  numeric_part a = None -> float (strip a) = Raise ValueError.
Proof.
  unfold numeric_part. destruct (strip a) eqn:Hs; [by vm_compute|].
  destruct (float _) as [v|e] eqn:Hf; [done|].
  by rewrite (float_raises_ValueError _ _ Hf).
Qed.

(** C4: the bounded branch is taken exactly when the split on '-' has
    two parts, that is when the text holds one '-', whatever the parts
    are; there the two trimmed parts are converted, and a part that is not
    numeric raises ValueError instead of leaving the range to the other
    branch.  Every other text is read by the branch keyed on the first
    character.  Whenever the range is read at all, it is the range the
    parsing policy gives. *)
Theorem bounded_branch_iff_two_parts (s : string) :
  (length (split "-" s) = 2 <-> count_char "-" s = 1)
  ∧ (length (split "-" s) = 2 ->
     parse_range s =
     (let* lo := float (strip (nth 0 (split "-" s) "")) in
      let* hi := float (strip (nth 1 (split "-" s) "")) in
      Ok (Bounded lo hi))
     ∧ (numeric_part (nth 0 (split "-" s) "") = None
        ∨ numeric_part (nth 1 (split "-" s) "") = None ->
        parse_range s = Raise ValueError))
  ∧ (length (split "-" s) ≠ 2 -> parse_range s = spec_one_sided s)
  ∧ (∀ r, parse_range s = Ok r -> spec_parse_range s = Ok r).
Proof.
  split; [|split; [|split]].
  - unfold split. rewrite split_dash_length. lia.
  - intros Hlen.
    assert (Hp : parse_range s =
      (let* lo := float (strip (nth 0 (split "-" s) "")) in
       let* hi := float (strip (nth 1 (split "-" s) "")) in
       Ok (Bounded lo hi))).
    { unfold parse_range. by rewrite Hlen. }
    split; [done|]. rewrite Hp. intros [Hn|Hn]; apply numeric_part_None in Hn.
    + by rewrite Hn.
    + rewrite Hn. destruct (float _) as [lo|e] eqn:Hf; simpl; [done|].
      by rewrite (float_raises_ValueError _ _ Hf).
  - apply parse_range_one_sided.
  - intros r Hr. destruct (decide (length (split "-" s) = 2)) as [Hlen|Hlen].
    + unfold parse_range in Hr. rewrite Hlen in Hr. simpl in Hr.
      unfold spec_parse_range. rewrite (split_two_parts _ _ Hlen).
      destruct (float (strip (nth 0 _ _))) as [lo|] eqn:Hlo; simpl in Hr; [|done].
      destruct (float (strip (nth 1 _ _))) as [hi|] eqn:Hhi; simpl in Hr; [|done].
      by rewrite (numeric_part_float _ _ Hlo), (numeric_part_float _ _ Hhi).
    + rewrite parse_range_one_sided in Hr by done.
      unfold spec_parse_range.
      by destruct (split "-" s) as [|a [|b [|? ?]]].
Qed.

(** C4 as stated fails on a less-than range with a negative threshold:
    the split of <-5 has two parts, of which "<" is not numeric, so the
    parsing policy reads a less-than range, and the program raises
    ValueError. *)
Lemma negative_threshold_not_one_sided :
  split "-" "<-5" = ["<"; "5"]
  ∧ numeric_part "<" = None
  ∧ spec_parse_range "<-5" = Ok (OneSided LessThan (Fin (-5)))
  ∧ parse_range "<-5" = Raise ValueError
  ∧ classify (mkRow None None "Glucose Fasting" "1" "mg/dL" "<-5" None)
    = Raise ValueError.
Proof. repeat split; reflexivity. Qed.

(* --------------------------------------------------------------------- *)
(** ** The loop over the store                                           *)
(* --------------------------------------------------------------------- *)

Lemma set_Category_six (c : string) (r r' : row) :
  six r = six r' -> set_Category c r = set_Category c r'.
Proof. unfold six, set_Category. by intros [= -> -> -> -> -> ->]. Qed.

Lemma six_lookup_total (h h' : store) (i : nat) :
  six <$> h = six <$> h' -> six (h !!! i) = six (h' !!! i).
Proof.
  intros Heq. rewrite !list_lookup_total_alt.
  assert (Hi : (six <$> h) !! i = (six <$> h') !! i) by by rewrite Heq.
  rewrite !list_lookup_fmap in Hi.
  destruct (h !! i), (h' !! i); simpl in *; congruence.
Qed.

Lemma insert_set_Category_six (h : store) (i : nat) (c : string) :
  six <$> <[i := set_Category c (h !!! i)]> h = six <$> h.
Proof.
  rewrite list_fmap_insert. destruct (decide (i < length h)) as [Hlt|Hge].
  - apply list_insert_id. rewrite list_lookup_fmap.
    by rewrite (list_lookup_lookup_total_lt h i Hlt).
  - apply list_insert_ge. rewrite length_fmap. lia.
Qed.

(** The loop leaves the six original fields of every object as they
    were. *)
Lemma analyze_loop_six (data : list nat) (h : store) :
  six <$> (analyze_loop data h).1 = six <$> h.
Proof.
  revert h. induction data as [|item data IH]; intros h; [done|].
  cbn [analyze_loop]. destruct (classify (h !!! item)) as [c|e]; [|done].
  rewrite IH. apply insert_set_Category_six.
Qed.

Lemma analyze_loop_length (data : list nat) (h : store) :
  length (analyze_loop data h).1 = length h.
Proof.
  rewrite <- (length_fmap six), analyze_loop_six. apply length_fmap.
Qed.

(** Objects the list does not refer to are not touched. *)
Lemma analyze_loop_frame (data : list nat) (h : store) (i : nat) :
  i ∉ data -> (analyze_loop data h).1 !!! i = h !!! i.
Proof.
  revert h. induction data as [|item data IH]; intros h Hi; [done|].
  apply not_elem_of_cons in Hi as [Hne Hi].
  cbn [analyze_loop]. destruct (classify (h !!! item)) as [c|e]; [|done].
  rewrite IH by done. rewrite !list_lookup_total_alt.
  by rewrite list_lookup_insert_ne.
Qed.

(** When the loop ends, every object of the list has its category. *)
Lemma analyze_loop_done (data : list nat) (h h' : store) (i : nat) :
  analyze_loop data h = (h', None) ->
  i ∈ data -> i < length h ->
  ∃ c, classify (h !!! i) = Ok c ∧ h' !!! i = set_Category c (h !!! i).
Proof.
  revert h. induction data as [|item data IH]; intros h Hrun Hi Hlt.
  { by apply elem_of_nil in Hi. }
  cbn [analyze_loop] in Hrun.
  destruct (classify (h !!! item)) as [c|e] eqn:Hc; [|done].
  set (h1 := <[item := set_Category c (h !!! item)]> h) in *.
  assert (Hsix : six <$> h1 = six <$> h) by apply insert_set_Category_six.
  destruct (decide (i ∈ data)) as [Hin|Hnin].
  - destruct (IH h1 Hrun Hin) as (c' & Hc' & Hh').
    { unfold h1. by rewrite length_insert. }
    exists c'. split.
    + rewrite <- Hc'. apply classify_six. symmetry. by apply six_lookup_total.
    + rewrite Hh'. apply set_Category_six. by apply six_lookup_total.
  - apply elem_of_cons in Hi as [->|Hin]; [|done].
    exists c. split; [done|].
    replace h' with (analyze_loop data h1).1 by by rewrite Hrun.
    rewrite analyze_loop_frame by done.
    unfold h1. rewrite list_lookup_total_alt.
    by rewrite list_lookup_insert_eq.
Qed.

(** What the reading of a reference range raises: IndexError on the empty
    text, ValueError on any other. *)
Lemma parse_range_raises (s : string) (e : exn) :
  parse_range s = Raise e ->
  (e = IndexError ∧ s = "") ∨ (e = ValueError ∧ s ≠ "").
Proof.
  unfold parse_range.
  destruct (length (split "-" s) =? 2)%nat eqn:Hlen.
  - assert (Hne : s ≠ "") by (intros ->; discriminate).
    destruct (float (strip (nth 0 _ _))) as [lo|e1] eqn:Hlo; simpl.
    + destruct (float (strip (nth 1 _ _))) as [hi|e2] eqn:Hhi; simpl; [done|].
      intros [= <-]. right. by rewrite (float_raises_ValueError _ _ Hhi).
    + intros [= <-]. right. by rewrite (float_raises_ValueError _ _ Hlo).
  - destruct s as [|sign s]; simpl.
    + intros [= <-]. by left.
    + destruct (Ascii.eqb sign "<");
        (destruct (float s) as [t|e1] eqn:Ht; simpl; [done|];
         intros [= <-]; right; by rewrite (float_raises_ValueError _ _ Ht)).
Qed.

(** A record does not classify exactly for one of the three reasons, and
    raises what the reason says. *)
Lemma classify_unclassifiable (r : row) (e : exn) :
  classify r = Raise e <-> unclassifiable r e.
Proof.
  rewrite classify_decompose. split.
  - destruct (float (Value r)) as [v|e0] eqn:Hv; simpl.
    + destruct (parse_range (ReferenceRange r)) as [rg|e1] eqn:Hr; simpl; [done|].
      intros [= <-].
      destruct (parse_range_raises _ _ Hr) as [[-> Hs]|[-> Hs]].
      * by apply (empty_range r v).
      * by apply (bad_bound r v).
    + intros [= <-]. pose proof (float_raises_ValueError _ _ Hv) as ->.
      by apply bad_value.
  - intros [Hv|v Hv Hs|v Hv Hs Hr].
    + by rewrite Hv.
    + rewrite Hv, Hs. reflexivity.
    + rewrite Hv. simpl. by rewrite Hr.
Qed.

Lemma unclassifiable_kind (r : row) (e : exn) :
  unclassifiable r e -> e = ValueError ∨ e = IndexError.
Proof. intros [?|? ? ?|? ? ? ?]; auto. Qed.

Lemma classify_bad_record (r : row) :
  float (Value r) = Raise ValueError ∨ ReferenceRange r = "" ->
  ∃ e, classify r = Raise e.
Proof.
  intros [Hv|Hr]; unfold classify.
  - rewrite Hv. by exists ValueError.
  - rewrite Hr. destruct (float (Value r)) as [v|e]; simpl.
    + by exists IndexError.
    + by exists e.
Qed.

(** The loop is left at the first object that does not classify, with
    the exception of that object. *)
Lemma analyze_loop_first_raise (data : list nat) (h : store) (i : nat) (e0 : exn) :
  i ∈ data -> classify (h !!! i) = Raise e0 ->
  ∃ before j after e,
    data = before ++ j :: after
    ∧ Forall (fun k => ∃ c, classify (h !!! k) = Ok c) before
    ∧ classify (h !!! j) = Raise e
    ∧ (j = i ∨ i ∈ after)
    ∧ (analyze_loop data h).2 = Some e.
Proof.
  revert h. induction data as [|item data IH]; intros h Hi Hbad.
  { by apply elem_of_nil in Hi. }
  cbn [analyze_loop].
  destruct (classify (h !!! item)) as [c|e] eqn:Hc.
  - apply elem_of_cons in Hi as [->|Hin]; [congruence|].
    set (h1 := <[item := set_Category c (h !!! item)]> h).
    assert (Hsame : ∀ k, classify (h1 !!! k) = classify (h !!! k)).
    { intros k. apply classify_six, six_lookup_total, insert_set_Category_six. }
    destruct (IH h1 Hin) as (before & j & after & e & -> & Hbefore & Hj & Hplace & Hrun).
    { by rewrite Hsame. }
    exists (item :: before), j, after, e. split; [done|].
    split; [|by rewrite <- Hsame].
    apply Forall_cons. split; [by exists c|].
    eapply Forall_impl; [exact Hbefore|]. intros k [c' Hc']. exists c'.
    by rewrite <- Hsame.
  - exists [], item, data, e. split; [done|]. split; [by apply List.Forall_nil|].
    split; [done|]. split; [|done].
    apply elem_of_cons in Hi as [->|Hin]; auto.
Qed.

(** The rows of a table, classified one after the other. *)
Lemma analyze_loop_seq (before todo : list row) :
  analyze_loop (seq (length before) (length todo)) (before ++ todo)
  = match traverse (fun r => let* c := classify r in Ok (set_Category c r)) todo with
    | Ok todo' => (before ++ todo', None)
    | Raise e =>
        ((analyze_loop (seq (length before) (length todo)) (before ++ todo)).1,
         Some e)
    end.
Proof.
  revert before. induction todo as [|r todo IH]; intros before.
  { simpl. by rewrite app_nil_r. }
  cbn [length seq analyze_loop traverse].
  rewrite list_lookup_total_middle by done.
  destruct (classify r) as [c|e]; simpl; [|done].
  rewrite insert_app_r_alt, Nat.sub_diag by done. cbn [insert list_insert].
  specialize (IH (before ++ [set_Category c r])).
  rewrite length_app, <- app_assoc in IH. simpl in IH.
  rewrite Nat.add_1_r in IH. rewrite IH.
  destruct (traverse _ todo) as [todo'|e]; simpl; [|done].
  by rewrite <- app_assoc.
Qed.

Lemma lookup_total_seq (h : store) :
  map (fun i => h !!! i) (seq 0 (length h)) = h.
Proof.
  apply list_eq. intros i. rewrite list_lookup_fmap.
  destruct (decide (i < length h)) as [Hlt|Hge].
  - rewrite lookup_seq_lt by done. simpl.
    by rewrite (list_lookup_lookup_total_lt h i Hlt).
  - rewrite lookup_seq_ge by lia. simpl. symmetry. apply lookup_ge_None. lia.
Qed.

Lemma traverse_length {A B : Type} (f : A -> result B) (l : list A) (l' : list B) :
  traverse f l = Ok l' -> length l' = length l.
Proof.
  revert l'. induction l as [|a l IH]; intros l'; simpl; [by intros [= <-]|].
  destruct (f a); simpl; [|done].
  destruct (traverse f l) as [ys|]; simpl; [|done].
  intros [= <-]. simpl. f_equal. by apply IH.
Qed.

(** The callback on a table: every row with its category, or the
    exception of the first row that does not classify. *)
Lemma analyze_table_traverse (table_data : list row) :
  analyze_table table_data
  = traverse (fun r => let* c := classify r in Ok (set_Category c r)) table_data.
Proof.
  unfold analyze_table, analyze_test_results.
  pose proof (analyze_loop_seq [] table_data) as Hloop. simpl in Hloop.
  rewrite Hloop.
  destruct (traverse _ table_data) as [rows|e] eqn:Ht; [|done].
  f_equal. rewrite <- (traverse_length _ _ _ Ht). apply lookup_total_seq.
Qed.

Lemma traverse_raises {A B : Type} (f : A -> result B) (l : list A) (a : A) (e : exn) :
  a ∈ l -> f a = Raise e -> ∃ e', traverse f l = Raise e'.
Proof.
  induction l as [|b l IH]; intros Hin Hf; [by apply elem_of_nil in Hin|].
  simpl. destruct (f b) as [y|e'] eqn:Hb; simpl; [|by exists e'].
  apply elem_of_cons in Hin as [->|Hin]; [congruence|].
  destruct (IH Hin Hf) as [e' ->]. by exists e'.
Qed.

(** A traversal stops at the first element that raises, with the
    exception of that element. *)
Lemma traverse_first_raise {A B : Type} (f : A -> result B) (l : list A) (a : A) (e0 : exn) :
  a ∈ l -> f a = Raise e0 ->
  ∃ before b after e,
    l = before ++ b :: after
    ∧ Forall (fun x => ∃ y, f x = Ok y) before
    ∧ f b = Raise e
    ∧ (b = a ∨ a ∈ after)
    ∧ traverse f l = Raise e.
Proof.
  induction l as [|x l IH]; intros Hin Hf; [by apply elem_of_nil in Hin|].
  simpl. destruct (f x) as [y|e] eqn:Hx; simpl.
  - apply elem_of_cons in Hin as [->|Hin]; [congruence|].
    destruct (IH Hin Hf) as (before & b & after & e & -> & Hbefore & Hb & Hplace & ->).
    exists (x :: before), b, after, e. split; [done|].
    split; [|done]. apply Forall_cons. split; [by exists y|done].
  - exists [], x, l, e. split; [done|]. split; [by apply List.Forall_nil|].
    split; [done|]. split; [|done].
    apply elem_of_cons in Hin as [->|Hin]; auto.
Qed.

Lemma traverse_all_ok {A B : Type} (f : A -> result B) (l : list A) :
  Forall (fun x => ∃ y, f x = Ok y) l -> ∃ l', traverse f l = Ok l'.
Proof.
  induction 1 as [|x l [y Hy] _ [l' IH]]; simpl; [by eexists|].
  rewrite Hy, IH. simpl. by eexists.
Qed.

(** C3: a record whose 'Value' does not convert, or whose 'Reference
    Range' is empty, makes the whole classification raise: nothing is
    returned for the batch.  The exception is that of the first record of
    the batch that does not classify, the records before it all
    classifying: the bad record itself or one before it, which fails for
    its value, for an empty range or for a bound that is not a number; it
    is ValueError, or IndexError when the value of that record is a number
    and its range is empty.  The same holds of the callback on the objects
    it is given.  Rows are returned when, and only when, every record
    classifies, and then all of them are, each with its category. *)
Theorem classification_is_all_or_nothing (table_data : list row) :
  (∀ bad : row,
     bad ∈ table_data ->
     float (Value bad) = Raise ValueError ∨ ReferenceRange bad = "" ->
     ∃ (before : list row) (r : row) (after : list row) (e : exn),
       table_data = before ++ r :: after
       ∧ Forall (fun r0 => ∃ c, classify r0 = Ok c) before
       ∧ unclassifiable r e
       ∧ (e = ValueError ∨ e = IndexError)
       ∧ (e = IndexError <-> (∃ v, float (Value r) = Ok v) ∧ ReferenceRange r = "")
       ∧ (r = bad ∨ bad ∈ after)
       ∧ analyze_table table_data = Raise e)
  ∧ (∀ (h : store) (data : list nat) (i : nat),
       i ∈ data ->
       float (Value (h !!! i)) = Raise ValueError ∨ ReferenceRange (h !!! i) = "" ->
       ∃ (before : list nat) (j : nat) (after : list nat) (e : exn),
         data = before ++ j :: after
         ∧ Forall (fun k => ∃ c, classify (h !!! k) = Ok c) before
         ∧ unclassifiable (h !!! j) e
         ∧ (e = ValueError ∨ e = IndexError)
         ∧ (e = IndexError
            <-> (∃ v, float (Value (h !!! j)) = Ok v) ∧ ReferenceRange (h !!! j) = "")
         ∧ (j = i ∨ i ∈ after)
         ∧ (analyze_test_results data h).2 = Raise e)
  ∧ (∀ out : list row,
       analyze_table table_data = Ok out ->
       Forall2 (fun r r' => ∃ c, classify r = Ok c ∧ r' = set_Category c r)
               table_data out)
  ∧ (Forall (fun r => ∃ c, classify r = Ok c) table_data ->
     ∃ out, analyze_table table_data = Ok out).
Proof.
  assert (Hkind : ∀ r e, unclassifiable r e ->
            (e = ValueError ∨ e = IndexError)
            ∧ (e = IndexError
               <-> (∃ v, float (Value r) = Ok v) ∧ ReferenceRange r = "")).
  { intros r e Hu. split; [by apply (unclassifiable_kind r)|].
    destruct Hu as [Hv|v Hv Hs|v Hv Hs Hr].
    - split; [done|]. intros [[v Hv'] _]. congruence.
    - split; [|done]. intros _. split; [by exists v|done].
    - split; [done|]. by intros [_ ?]. }
  split; [|split; [|split]].
  - intros bad Hin Hbad. rewrite analyze_table_traverse.
    destruct (classify_bad_record bad Hbad) as [e0 He0].
    destruct (traverse_first_raise
                (fun r => let* c := classify r in Ok (set_Category c r))
                table_data bad e0 Hin)
      as (before & r & after & e & -> & Hbefore & Hr & Hplace & Hrun).
    { by rewrite He0. }
    assert (Hu : unclassifiable r e).
    { apply classify_unclassifiable. by destruct (classify r); simplify_eq/=. }
    exists before, r, after, e. split; [done|]. split.
    { eapply Forall_impl; [exact Hbefore|]. intros r0 [y Hy].
      destruct (classify r0) as [c|]; [by exists c|done]. }
    split; [done|]. destruct (Hkind r e Hu) as [? ?]. done.
  - intros h data i Hin Hbad.
    destruct (classify_bad_record _ Hbad) as [e0 He0].
    destruct (analyze_loop_first_raise data h i e0 Hin He0)
      as (before & j & after & e & -> & Hbefore & Hj & Hplace & Hrun).
    apply classify_unclassifiable in Hj.
    exists before, j, after, e. split; [done|]. split; [done|]. split; [done|].
    destruct (Hkind _ e Hj) as [? ?]. split; [done|]. split; [done|]. split; [done|].
    unfold analyze_test_results.
    destruct (analyze_loop (before ++ j :: after) h) as [h' [e''|]];
      simpl in *; congruence.
  - rewrite analyze_table_traverse. induction table_data as [|r rows IH]; intros out.
    + intros [= <-]. constructor.
    + simpl. destruct (classify r) as [c|] eqn:Hc; simpl; [|done].
      destruct (traverse _ rows) as [out'|]; simpl; [|done].
      intros [= <-]. constructor; [by exists c|]. by apply IH.
  - intros Hall. rewrite analyze_table_traverse. apply traverse_all_ok.
    eapply Forall_impl; [exact Hall|]. intros r [c ->]. simpl. by eexists.
Qed.

(** C3, on a batch of a good record, one whose range has bounds that are
    not numbers, and one whose value is 1,2. *)
Lemma classification_is_all_or_nothing_witness :
  let good := mkRow (Some "John Smith") (Some "12/03/2023") "Hemoglobin" "13.5"
                    "g/dL" "13.0 - 17.0" None in
  let odd := mkRow (Some "John Smith") (Some "12/03/2023") "TSH" "5"
                   "µIU/mL" "abc - def" None in
  let bad := mkRow (Some "John Smith") (Some "12/03/2023") "Platelets" "1,2"
                   "thou/mm3" "150 - 410" None in
  bad ∈ [good; odd; bad]
  ∧ float (Value bad) = Raise ValueError
  ∧ ∃ (before : list row) (r : row) (after : list row) (e : exn),
      [good; odd; bad] = before ++ r :: after
      ∧ Forall (fun r0 => ∃ c, classify r0 = Ok c) before
      ∧ unclassifiable r e
      ∧ (e = ValueError ∨ e = IndexError)
      ∧ (e = IndexError <-> (∃ v, float (Value r) = Ok v) ∧ ReferenceRange r = "")
      ∧ (r = bad ∨ bad ∈ after)
      ∧ analyze_table [good; odd; bad] = Raise e.
Proof.
  intros good odd bad.
  assert (Hin : bad ∈ [good; odd; bad]).
  { apply elem_of_cons; right; apply elem_of_cons; right; apply elem_of_cons; by left. }
  split; [exact Hin|]. split; [reflexivity|].
  exact (proj1 (classification_is_all_or_nothing [good; odd; bad]) bad Hin
               (or_introl eq_refl)).
Defined.

(** The exception is that of the first record that does not classify: a
    record whose range has bounds that are not numbers makes the callback
    raise ValueError when it stands before a record without a range, and
    the callback raises IndexError when it stands after it. *)
Example first_unclassifiable_record_decides :
  let odd := mkRow (Some "John Smith") (Some "12/03/2023") "TSH" "5"
                   "µIU/mL" "abc - def" None in
  let empty := mkRow (Some "John Smith") (Some "12/03/2023") "TSH" "6.1"
                     "µIU/mL" "" None in
  analyze_table [odd; empty] = Raise ValueError
  ∧ analyze_table [empty; odd] = Raise IndexError.
Proof. split; reflexivity. Qed.

(** C3 as stated fails: with a record whose value is 1,2 between two
    good ones nothing is classified, the callback raises ValueError; with
    an empty reference range it raises IndexError.  Without the bad
    record both good ones are classified. *)
Lemma bad_record_aborts_the_batch :
  let good := mkRow (Some "John Smith") (Some "12/03/2023") "Hemoglobin" "13.5"
                    "g/dL" "13.0 - 17.0" None in
  let bad := mkRow (Some "John Smith") (Some "12/03/2023") "Platelets" "1,2"
                   "thou/mm3" "150 - 410" None in
  let empty := mkRow (Some "John Smith") (Some "12/03/2023") "TSH" "6.1"
                     "µIU/mL" "" None in
  analyze_table [good; bad; good] = Raise ValueError
  ∧ analyze_table [good; empty; good] = Raise IndexError
  ∧ analyze_table [good; good]
    = Ok [set_Category "Normal" good; set_Category "Normal" good]
  ∧ ¬ ∃ out, analyze_table [good; bad; good] = Ok out.
Proof.
  repeat split; try reflexivity. intros [out Hout]. vm_compute in Hout. discriminate.
Qed.

(** C9: the classification updates the records it is given in place.
    After the call the store has as many objects, each with its six
    original fields; the objects the list does not refer to are as they
    were; and when the call returns, it returns the list it was given and
    every record of the list carries its category.  The validator returns
    records it was given, in their order. *)
Theorem analyze_updates_records_in_place (data : list nat) (h : store) :
  let h' := (analyze_test_results data h).1 in
  length h' = length h
  ∧ six <$> h' = six <$> h
  ∧ (∀ i, i ∉ data -> h' !!! i = h !!! i)
  ∧ (∀ returned columns,
       (analyze_test_results data h).2 = Ok (returned, columns) ->
       returned = data
       ∧ ∀ i, i ∈ data -> i < length h ->
           ∃ c, classify (h !!! i) = Ok c ∧ h' !!! i = set_Category c (h !!! i))
  ∧ (∀ rows : list row, sublist (clean_data rows) rows).
Proof.
  assert (Hfst : (analyze_test_results data h).1 = (analyze_loop data h).1).
  { unfold analyze_test_results. by destruct (analyze_loop data h) as [? [?|]]. }
  cbn zeta. rewrite Hfst.
  split; [apply analyze_loop_length|].
  split; [apply analyze_loop_six|].
  split; [intros i; apply analyze_loop_frame|].
  split.
  - intros returned columns Hret. unfold analyze_test_results in Hret.
    destruct (analyze_loop data h) as [h' [e|]] eqn:Hloop; simpl in Hret; [done|].
    injection Hret as <- <-. split; [done|].
    intros i Hin Hlt. by apply (analyze_loop_done data h h' i).
  - intros rows. apply (clean_data_sublist rows).
Qed.

(** C9, on a store of one record. *)
Lemma analyze_updates_records_in_place_witness :
  let r := mkRow (Some "John Smith") (Some "12/03/2023") "Hemoglobin" "13.5"
                 "g/dL" "13.0 - 17.0" None in
  (analyze_test_results [0] [r]).2 = Ok ([0], analyze_columns)
  ∧ ∃ c, classify r = Ok c
         ∧ (analyze_test_results [0] [r]).1 !!! 0 = set_Category c r.
Proof.
  intros r. split; [reflexivity|].
  destruct (analyze_updates_records_in_place [0] [r]) as (_ & _ & _ & H & _).
  destruct (H [0] analyze_columns eq_refl) as [_ H0].
  apply (H0 0); [apply elem_of_cons; by left | simpl; lia].
Defined.

(** C9 as stated fails: the record handed to the classification has no
    'Category' before the call and has one after it. *)
Lemma classification_mutates_its_input :
  let r := mkRow (Some "John Smith") (Some "12/03/2023") "Hemoglobin" "13.5"
                 "g/dL" "13.0 - 17.0" None in
  let h := [r] in
  let h' := (analyze_test_results [0] h).1 in
  Category (h !!! 0) = None
  ∧ Category (h' !!! 0) = Some "Normal"
  ∧ h' !!! 0 ≠ h !!! 0.
Proof. repeat split; try reflexivity. vm_compute. discriminate. Qed.

(* ===================================================================== *)
(** * Properties of the matcher and of the extraction                    *)
(* ===================================================================== *)

Lemma advance_rest (k : nat) (st : mstate) :
  String.length (rest (advance k st)) = String.length (rest st) - k.
Proof.
  revert st. induction k as [|k IH]; intros st; simpl.
  - lia.
  - destruct (rest st) as [|c s'] eqn:Hrest.
    + by rewrite Hrest.
    + rewrite IH. simpl. lia.
Qed.

Lemma run_length_le (p : ascii -> bool) (s : string) :
  (run_length p s ≤ String.length s)%nat.
Proof. induction s as [|c s IH]; simpl; [lia|]. destruct (p c); lia. Qed.

Lemma elem_of_down_to (lo n k : nat) : k ∈ down_to lo n -> (lo ≤ k ≤ n)%nat.
Proof.
  induction n as [|n IH]; simpl.
  - destruct (0 <? lo)%nat eqn:Hlo; [by intros ?%elem_of_nil|].
    apply Nat.ltb_ge in Hlo. intros Heq%list_elem_of_singleton; subst. lia.
  - destruct (S n <? lo)%nat eqn:Hlo; [by intros ?%elem_of_nil|].
    apply Nat.ltb_ge in Hlo. intros [Heq|Hk]%elem_of_cons; [lia|].
    specialize (IH Hk). lia.
Qed.

Lemma prefix_length (s t : string) :
  String.prefix s t = true -> (String.length s ≤ String.length t)%nat.
Proof.
  revert t. induction s as [|c s IH]; intros t; simpl; [lia|].
  destruct t as [|d t]; simpl; [done|]. destruct (ascii_dec c d); [|done].
  intros H%IH. lia.
Qed.

(** A match takes at least [minlen] characters off the text. *)
Lemma run_consumes (r : regex) (st st' : mstate) :
  st' ∈ run r st ->
  (String.length (rest st') + minlen r ≤ String.length (rest st))%nat.
Proof.
  revert st st'. induction r as [s|p lo hi|r1 IH1 r2 IH2|r1 IH1 r2 IH2|r1 IH1|i r1 IH1|];
    intros st st'; simpl.
  - destruct (String.prefix s (rest st)) eqn:Hp; [|by intros ?%elem_of_nil].
    intros Heq%list_elem_of_singleton; subst. apply prefix_length in Hp.
    rewrite advance_rest. lia.
  - intros (k & -> & Hk)%list_elem_of_fmap. apply elem_of_down_to in Hk.
    rewrite advance_rest. pose proof (run_length_le p (rest st)).
    destruct hi; lia.
  - intros Hin%list_elem_of_In. apply in_flat_map in Hin as (st1 & H1 & H2).
    apply list_elem_of_In in H1, H2.
    specialize (IH1 _ _ H1). specialize (IH2 _ _ H2). lia.
  - intros [H|H]%elem_of_app; [specialize (IH1 _ _ H) | specialize (IH2 _ _ H)]; lia.
  - intros [H|H%list_elem_of_singleton]%elem_of_app; [specialize (IH1 _ _ H)|subst]; lia.
  - intros (st1 & -> & H1)%list_elem_of_fmap. simpl. by apply IH1.
  - destruct (xorb _ _); [|by intros ?%elem_of_nil].
    intros Heq%list_elem_of_singleton; subst. lia.
Qed.

Lemma take_str_nonempty (k : nat) (s : string) :
  (0 < k)%nat -> (0 < String.length s)%nat -> take_str k s ≠ "".
Proof. destruct k, s; simpl; (lia || done). Qed.

(** A capture group that closes the pattern holds the text its body
    matched, which is not empty when the body cannot match the empty
    text. *)
Lemma run_group_nonempty (i : nat) (body : regex) (st st' : mstate) :
  (0 < minlen body)%nat -> st' ∈ run (Grp i body) st -> group i (groups st') ≠ "".
Proof.
  intros Hmin (st1 & -> & H1)%list_elem_of_fmap. simpl.
  rewrite Nat.eqb_refl. apply run_consumes in H1.
  apply take_str_nonempty; lia.
Qed.

Lemma run_Seq (r1 r2 : regex) (st st' : mstate) :
  st' ∈ run (Seq r1 r2) st -> ∃ st1, st1 ∈ run r1 st ∧ st' ∈ run r2 st1.
Proof.
  simpl. intros Hin%list_elem_of_In. apply in_flat_map in Hin as (st1 & H1 & H2).
  exists st1. by rewrite !list_elem_of_In.
Qed.

Lemma run_Grp (i : nat) (r : regex) (st st' : mstate) :
  st' ∈ run (Grp i r) st ->
  ∃ st1, st1 ∈ run r st
         ∧ groups st'
           = (i, take_str (String.length (rest st) - String.length (rest st1)) (rest st))
             :: groups st1
         ∧ rest st' = rest st1.
Proof.
  simpl. intros (st1 & -> & H1)%list_elem_of_fmap. by exists st1.
Qed.

Lemma search_from_match (r : regex) (before : option ascii) (s : string) (st : mstate) :
  search_from r before s = Some st ->
  ∃ before' s', match_at r before' s' = Some st.
Proof.
  revert before. induction s as [|c s IH]; intros before; simpl.
  - destruct (match_at r before "") eqn:Hm; [|done]. intros [= <-]. eauto.
  - destruct (match_at r before (String c s)) eqn:Hm.
    + intros [= <-]. eauto.
    + apply IH.
Qed.

(** A name that is found is never the empty text. *)
Lemma name_match_nonempty (text : string) (name_match : mstate) :
  search name_pattern text = Some name_match ->
  group 1 (groups name_match) ≠ "".
Proof.
  intros (before & s & Hm)%search_from_match.
  unfold match_at in Hm. apply head_Some_elem_of in Hm.
  apply run_Grp in Hm as (st & Hst & -> & _).
  cbn [group Nat.eqb].
  unfold name_pattern in Hst. cbn [cat] in Hst.
  repeat (apply run_Seq in Hst as (? & _ & Hst)).
  apply run_group_nonempty in Hst; [done|]. simpl. lia.
Qed.

Lemma clean_data_elem_of (data : list row) (r : row) :
  r ∈ clean_data data -> r ∈ data.
Proof.
  induction data as [|entry data IH]; [done|]. cbn [clean_data].
  destruct (is_valid entry).
  - intros [->|Hin]%elem_of_cons; [by left|]. right. by apply IH.
  - intros Hin. right. by apply IH.
Qed.

(** The rows of a document have no category yet, and their name is None
    or a text that is not empty. *)
Lemma extract_rows (pages : list string) (r : row) :
  r ∈ extract_all_data_from_pdf pages ->
  Category r = None ∧ (Name r = None ∨ ∃ n, Name r = Some n ∧ n ≠ "").
Proof.
  unfold extract_all_data_from_pdf. cbv zeta.
  intros Hin%clean_data_elem_of.
  apply list_elem_of_fmap in Hin as (m & -> & _). simpl. split; [done|].
  destruct (search name_pattern _) as [name_match|] eqn:Hs; [|by left].
  right. eexists. split; [done|]. by apply (name_match_nonempty _ _ Hs).
Qed.

(* --------------------------------------------------------------------- *)
(** ** Scenario A, end to end                                            *)
(* --------------------------------------------------------------------- *)

(** The three texts of scenario A give the observation of the scenario,
    with the category Normal, when the line of the test comes first, and
    when the date is followed by a time of day. *)
Example scenario_A_in_other_layouts :
  let expected :=
    {| Name := Some "John Smith"; Date := Some "12/03/2023";
       TestName := "Hemoglobin"; Value := "13.5"; Unit := "g/dL";
       ReferenceRange := "13.0 - 17.0"; Category := Some "Normal" |} in
  pipeline [document ["Hemoglobin 13.5 g/dL 13.0 - 17.0";
                      "Name: Mr. John Smith";
                      "12/03/2023"]] = Ok [expected]
  ∧ pipeline [document ["Name: Mr. John Smith";
                        "Date: 12/03/2023 10:30";
                        "Hemoglobin 13.5 g/dL 13.0 - 17.0"]] = Ok [expected].
Proof. split; vm_compute; reflexivity. Qed.

(** C5: on the three texts of the scenario, in the order in which it
    names them, the code gives no observation where the scenario expects
    one.  The pattern is meant for a line, its last group being the rest
    of a line, but the white space of its first group runs over line
    breaks: the match that starts at "John Smith" takes 12 for its number
    and the rest of the date for its unit, and takes the whole line of the
    test for its last group.  The validator drops that match, and nothing
    is classified.  The same happens when the line of the test follows the
    name directly. *)
Theorem scenario_A_in_reading_order_gives_nothing :
  let text := document ["Name: Mr. John Smith";
                        "12/03/2023";
                        "Hemoglobin 13.5 g/dL 13.0 - 17.0"] in
  map (fun m => (group 1 m, group 2 m, group 3 m, group 4 m)) (findall pattern text)
  = [(" John Smith", "12", "/03/2023", "Hemoglobin 13.5 g/dL 13.0 - 17.0")]
  ∧ extract_all_data_from_pdf [text] = []
  ∧ pipeline [text] = Ok []
  ∧ pipeline [document ["Name: Mr. John Smith";
                        "Hemoglobin 13.5 g/dL 13.0 - 17.0";
                        "12/03/2023"]] = Ok [].
Proof. repeat split; vm_compute; reflexivity. Qed.

(* --------------------------------------------------------------------- *)
(** ** The options of the drop-down                                      *)
(* --------------------------------------------------------------------- *)

Lemma elem_of_options_of (names : list (option string)) (n : string) :
  n ∈ (opt_value <$> options_of names) <-> Some n ∈ names ∧ n ≠ "".
Proof.
  induction names as [|name names IH]; simpl.
  - split; [by intros ?%elem_of_nil | by intros [?%elem_of_nil _]].
  - rewrite fmap_app, elem_of_app, IH, elem_of_cons.
    destruct name as [[|c s]|]; simpl.
    + split.
      * intros [?%elem_of_nil|[? ?]]; [done|]. auto.
      * intros [[[= <-]|?] ?]; [done|]. auto.
    + rewrite list_elem_of_singleton. split.
      * intros [->|[? ?]]; [split; [by left|done]|]. auto.
      * intros [[[= ->]|?] ?]; [by left|]. auto.
    + split.
      * intros [?%elem_of_nil|[? ?]]; [done|]. auto.
      * intros [[?|?] ?]; [done|]. auto.
Qed.

Lemma NoDup_options_of (names : list (option string)) :
  NoDup names -> NoDup (opt_value <$> options_of names).
Proof.
  induction 1 as [|name names Hnotin Hnodup IH]; simpl; [constructor|].
  rewrite fmap_app. destruct name as [[|c s]|]; simpl; try done.
  constructor; [|done]. intros [Hin _]%elem_of_options_of. done.
Qed.

Lemma options_of_label (names : list (option string)) (o : dropdown_option) :
  o ∈ options_of names -> opt_label o = opt_value o.
Proof.
  induction names as [|name names IH]; simpl; [by intros ?%elem_of_nil|].
  intros [Hin|Hin]%elem_of_app; [|by apply IH].
  destruct name as [[|c s]|]; simpl in Hin;
    try (by apply elem_of_nil in Hin).
  apply list_elem_of_singleton in Hin. by subst.
Qed.

(** Rows without a name play no part in the charts. *)
Lemma add_row_unnamed (selected_names : list string) (td : test_data_t) (r : row) :
  named r = false -> add_row selected_names td r = Ok td.
Proof. unfold named, add_row. by destruct (Name r). Qed.

Lemma foldM_add_row_named (selected_names : list string) (rows : list row) (td : test_data_t) :
  foldM (add_row selected_names) (List.filter named rows) td
  = foldM (add_row selected_names) rows td.
Proof.
  revert td. induction rows as [|r rows IH]; intros td; [done|].
  simpl. destruct (named r) eqn:Hn; simpl.
  - destruct (add_row selected_names td r); simpl; [apply IH|done].
  - rewrite (add_row_unnamed _ _ _ Hn). simpl. apply IH.
Qed.

Lemma update_charts_named (selected_names : list string) (table_data : list row) :
  update_charts selected_names table_data
  = update_charts selected_names (List.filter named table_data).
Proof.
  unfold update_charts. destruct selected_names as [|first_patient names]; [done|].
  destruct table_data as [|r rows]; [done|].
  rewrite <- (foldM_add_row_named _ (r :: rows)).
  destruct (List.filter named (r :: rows)) as [|r' rows']; [done|]. done.
Qed.

(** C10: the options offered for comparison are the distinct patient
    names of the rows of the table, None left out, each once, with the
    name as label and as value.  The rows whose name is None are in the
    table all the same, and they take no part in any chart: without them
    the charts are the same for every selection. *)
Theorem dropdown_options_are_the_extracted_names
    (contents : list (list string)) (filenames : list string) :
  let table_data := (handle_upload (Some contents) filenames).1.1.2 in
  let options := (handle_upload (Some contents) filenames).2 in
  table_data
  = flat_map (fun cf => extract_all_data_from_pdf cf.1) (combine contents filenames)
  ∧ NoDup (opt_value <$> options)
  ∧ (∀ n : string,
       n ∈ (opt_value <$> options) <-> ∃ r, r ∈ table_data ∧ Name r = Some n)
  ∧ (∀ o, o ∈ options -> opt_label o = opt_value o)
  ∧ (∀ selected_names : list string,
       update_charts selected_names table_data
       = update_charts selected_names (List.filter named table_data)).
Proof.
  cbv zeta. unfold handle_upload.
  set (files_data := flat_map _ (combine contents filenames)).
  assert (Hrows : ∀ r, r ∈ files_data ->
            Category r = None ∧ (Name r = None ∨ ∃ n, Name r = Some n ∧ n ≠ "")).
  { intros r Hin%list_elem_of_In. apply in_flat_map in Hin as (cf & _ & Hin).
    apply list_elem_of_In in Hin. by apply extract_rows in Hin. }
  destruct files_data as [|r0 rows0] eqn:Hfd; cbn [fst snd].
  { split; [done|]. split; [constructor|]. split.
    - intros n. split; [by intros ?%elem_of_nil|].
      by intros (r & ?%elem_of_nil & _).
    - split; [by intros o ?%elem_of_nil|]. intros. apply update_charts_named. }
  rewrite <- Hfd in *. clear Hfd r0 rows0.
  assert (Htable : map (fun entry =>
             {| Name := Name entry; Date := Date entry; TestName := TestName entry;
                Value := Value entry; Unit := Unit entry;
                ReferenceRange := ReferenceRange entry; Category := None |})
             files_data = files_data).
  { induction files_data as [|r rows IH]; [done|]. simpl. f_equal.
    - destruct (Hrows r) as [Hc _]; [by left|]. destruct r; simpl in *. by subst.
    - apply IH. intros r' Hin. apply Hrows. by right. }
  rewrite Htable. fold (options_of (elements (list_to_set (map Name files_data) : gset (option string)))).
  split; [done|]. split; [apply NoDup_options_of, NoDup_elements|]. split.
  - intros n. rewrite elem_of_options_of, elem_of_elements, elem_of_list_to_set.
    split.
    + intros [(r & Hn & Hr)%list_elem_of_fmap _]. by exists r.
    + intros (r & Hr & Hn). split.
      * apply list_elem_of_fmap. by exists r.
      * destruct (Hrows r Hr) as [_ [Hnone|(n' & Hn' & Hne)]]; congruence.
  - split; [apply options_of_label|]. intros. apply update_charts_named.
Qed.

(* --------------------------------------------------------------------- *)
(** ** What strptime reads                                               *)
(* --------------------------------------------------------------------- *)

Lemma advance_groups (k : nat) (st : mstate) : groups (advance k st) = groups st.
Proof.
  revert st. induction k as [|k IH]; intros st; simpl; [done|].
  destruct (rest st); [done|]. by rewrite IH.
Qed.

Lemma append_cons (c : ascii) (s t : string) :
  (String c s ++ t)%string = String c (s ++ t).
Proof. done. Qed.

Lemma append_assoc (s t u : string) : ((s ++ t) ++ u)%string = (s ++ (t ++ u))%string.
Proof. induction s as [|c s IH]; [done|]. by rewrite !append_cons, IH. Qed.

Lemma append_nil_r (s : string) : (s ++ "")%string = s.
Proof. induction s as [|c s IH]; [done|]. by rewrite append_cons, IH. Qed.

Lemma length_append (s t : string) :
  String.length (s ++ t) = (String.length s + String.length t)%nat.
Proof. induction s as [|c s IH]; [done|]. rewrite append_cons. simpl. by rewrite IH. Qed.

Lemma advance_text (k : nat) (st : mstate) :
  rest st = (take_str k (rest st) ++ rest (advance k st))%string.
Proof.
  revert st. induction k as [|k IH]; intros st; simpl; [done|].
  destruct (rest st) as [|c s] eqn:Hrest; simpl; [by rewrite Hrest|].
  rewrite append_cons. f_equal. apply (IH (mkState (Some c) s (groups st))).
Qed.

Lemma prefix_text (s : string) (st : mstate) :
  String.prefix s (rest st) = true ->
  rest st = (s ++ rest (advance (String.length s) st))%string.
Proof.
  revert st. induction s as [|c s IH]; intros st; simpl; [done|].
  destruct (rest st) as [|d t] eqn:Hrest; simpl; [done|].
  destruct (ascii_dec c d) as [->|]; [|done].
  intros Hp. rewrite append_cons. f_equal.
  by apply (IH (mkState (Some d) t (groups st))).
Qed.

Lemma run_Lit_text (s : string) (st st' : mstate) :
  st' ∈ run (Lit s) st ->
  rest st = (s ++ rest st')%string ∧ groups st' = groups st.
Proof.
  simpl. destruct (String.prefix s (rest st)) eqn:Hp; [|by intros ?%elem_of_nil].
  intros Heq%list_elem_of_singleton; subst. split; [|apply advance_groups].
  by apply prefix_text.
Qed.

(** A match takes a prefix off the text. *)
Lemma run_text (r : regex) (st st' : mstate) :
  st' ∈ run r st -> ∃ w, rest st = (w ++ rest st')%string.
Proof.
  revert st st'. induction r as [s|p lo hi|r1 IH1 r2 IH2|r1 IH1 r2 IH2|r1 IH1|i r1 IH1|];
    intros st st'.
  - intros [H _]%run_Lit_text. by exists s.
  - simpl. intros (k & -> & _)%list_elem_of_fmap. eexists. apply advance_text.
  - intros (st1 & H1 & H2)%run_Seq.
    destruct (IH1 _ _ H1) as [w1 Hw1], (IH2 _ _ H2) as [w2 Hw2].
    exists (w1 ++ w2)%string. rewrite Hw1, Hw2. symmetry. apply append_assoc.
  - simpl. intros [H|H]%elem_of_app; eauto.
  - simpl. intros [H|H%list_elem_of_singleton]%elem_of_app; [eauto|].
    subst. by exists "".
  - simpl. intros (st1 & -> & H1)%list_elem_of_fmap. simpl. eauto.
  - simpl. destruct (xorb _ _); [|by intros ?%elem_of_nil].
    intros Heq%list_elem_of_singleton; subst. by exists "".
Qed.

Lemma run_no_groups (r : regex) (st st' : mstate) :
  no_groups r = true -> st' ∈ run r st -> groups st' = groups st.
Proof.
  revert st st'. induction r as [s|p lo hi|r1 IH1 r2 IH2|r1 IH1 r2 IH2|r1 IH1|i r1 IH1|];
    intros st st'; simpl; intros Hng.
  - destruct (String.prefix s (rest st)); [|by intros ?%elem_of_nil].
    intros Heq%list_elem_of_singleton; subst. apply advance_groups.
  - intros (k & -> & _)%list_elem_of_fmap. apply advance_groups.
  - apply andb_true_iff in Hng as [Hn1 Hn2].
    intros Hin%list_elem_of_In. apply in_flat_map in Hin as (st1 & H1 & H2).
    apply list_elem_of_In in H1, H2.
    rewrite (IH2 _ _ Hn2 H2). by apply IH1.
  - apply andb_true_iff in Hng as [Hn1 Hn2].
    intros [H|H]%elem_of_app; [by apply IH1 | by apply IH2].
  - intros [H|H%list_elem_of_singleton]%elem_of_app; [by apply IH1|by subst].
  - done.
  - destruct (xorb _ _); [|by intros ?%elem_of_nil].
    by intros Heq%list_elem_of_singleton; subst.
Qed.

Lemma take_str_app (w s : string) :
  take_str (String.length (w ++ s) - String.length s) (w ++ s) = w.
Proof.
  rewrite length_append, Nat.add_sub.
  induction w as [|c w IH]; [by destruct s|]. rewrite append_cons. simpl. by rewrite IH.
Qed.

(** A group without groups inside records the text it took. *)
Lemma run_Grp_text (i : nat) (r : regex) (st st' : mstate) :
  no_groups r = true ->
  st' ∈ run (Grp i r) st ->
  ∃ w, rest st = (w ++ rest st')%string ∧ groups st' = (i, w) :: groups st.
Proof.
  intros Hng. simpl. intros (st1 & -> & H1)%list_elem_of_fmap. simpl.
  destruct (run_text _ _ _ H1) as [w Hw]. exists w. split; [done|].
  rewrite (run_no_groups _ _ _ Hng H1). rewrite Hw at 1 2.
  by rewrite take_str_app.
Qed.

(** The text of a date that strptime accepts is a day, a month and a
    year, in that order, between slashes. *)
Lemma strptime_day_month_year (date : option string) (d : datetime) :
  strptime date = Ok d ->
  ∃ sd sm sy, date = Some (dmy sd sm sy)
              ∧ d = mkDate (int_of sy) (int_of sm) (int_of sd).
Proof.
  unfold strptime. destruct date as [s|]; [|done].
  destruct (match_at format_regex None s) as [found|] eqn:Hm; [|done].
  destruct (rest found) eqn:Hrest; [|done].
  unfold match_at in Hm. apply head_Some_elem_of in Hm.
  apply run_Grp in Hm as (st & Hst & Hg & Hr). rewrite Hg. cbn [group Nat.eqb].
  rewrite Hr in Hrest. clear Hg Hr found.
  unfold format_regex in Hst. cbn [cat] in Hst.
  apply run_Seq in Hst as (st1 & H1 & Hst).
  apply run_Seq in Hst as (st2 & H2 & Hst).
  apply run_Seq in Hst as (st3 & H3 & Hst).
  apply run_Seq in Hst as (st4 & H4 & H5).
  apply run_Grp_text in H1 as (sd & Hsd & Hg1); [|done].
  apply run_Lit_text in H2 as (Hs2 & Hg2).
  apply run_Grp_text in H3 as (sm & Hsm & Hg3); [|done].
  apply run_Lit_text in H4 as (Hs4 & Hg4).
  apply run_Grp_text in H5 as (sy & Hsy & Hg5); [|done].
  rewrite Hg5, Hg4, Hg3, Hg2, Hg1. cbn [group Nat.eqb].
  destruct (_ || _)%bool; [done|]. intros [= <-].
  exists sd, sm, sy. split; [|done].
  simpl in Hsd. rewrite Hsd, Hs2, Hsm, Hs4, Hsy, Hrest. unfold dmy.
  by rewrite append_nil_r.
Qed.

(* ===================================================================== *)
(** * Properties of the charts                                           *)
(* ===================================================================== *)

(* --------------------------------------------------------------------- *)
(** ** Dictionaries                                                      *)
(* --------------------------------------------------------------------- *)

Section dict.
Context {V : Type}.
Implicit Types (d : dict V) (k : string) (f : V -> V).

Lemma get_update_eq dflt k f d :
  get k (update dflt k f d) = Some (f (default dflt (get k d))).
Proof.
  induction d as [|[k' v] d IH]; simpl.
  - by rewrite String.eqb_refl.
  - destruct (String.eqb k k') eqn:Hk; simpl; by rewrite Hk.
Qed.

Lemma get_update_ne dflt k k' f d :
  k ≠ k' -> get k' (update dflt k f d) = get k' d.
Proof.
  intros Hne. apply String.eqb_neq in Hne. rewrite String.eqb_sym in Hne.
  induction d as [|[k0 v] d IH]; simpl.
  - by rewrite Hne.
  - destruct (String.eqb k k0) eqn:Hk; simpl.
    + apply String.eqb_eq in Hk. subst k0. by rewrite Hne.
    + by rewrite IH.
Qed.

Lemma get_is_Some k d : is_Some (get k d) <-> k ∈ keys d.
Proof.
  induction d as [|[k' v] d IH]; simpl.
  - split; [by intros [? ?] | by intros ?%elem_of_nil].
  - rewrite elem_of_cons. destruct (String.eqb_spec k k') as [->|Hne].
    + split; [by left | by eexists].
    + rewrite IH. tauto.
Qed.

Lemma keys_update dflt k f d :
  keys (update dflt k f d)
  = if get k d is Some _ then keys d else keys d ++ [k].
Proof.
  induction d as [|[k' v] d IH]; simpl; [done|].
  destruct (String.eqb k k'); simpl; [done|].
  rewrite IH. by destruct (get k d).
Qed.

Lemma NoDup_keys_update dflt k f d :
  NoDup (keys d) -> NoDup (keys (update dflt k f d)).
Proof.
  intros Hnd. rewrite keys_update. destruct (get k d) eqn:Hg; [done|].
  apply NoDup_app. split; [done|]. split; [|apply NoDup_singleton].
  intros k' Hin ->%list_elem_of_singleton.
  apply get_is_Some in Hin as [? ?]. congruence.
Qed.
End dict.

(* --------------------------------------------------------------------- *)
(** ** The first loop: the lists of a patient and a test                 *)
(* --------------------------------------------------------------------- *)

Lemma app_lists_assoc (l1 l2 l3 : test_lists) :
  app_lists (app_lists l1 l2) l3 = app_lists l1 (app_lists l2 l3).
Proof. unfold app_lists. simpl. by rewrite <- !app_assoc. Qed.

Lemma add_row_counts (sel : list string) (td td' : test_data_t) (r : row) (p t : string) :
  add_row sel td r = Ok td' ->
  str_in p sel = true ->
  counts_for p t r = true ->
  ∃ v, float (Value r) = Ok v
       ∧ lists_at p t td'
         = Some (app_lists (default no_lists (lists_at p t td)) (lists_of [v] [r])).
Proof.
  unfold counts_for, add_row. intros Hadd Hsel Hc.
  apply andb_true_iff in Hc as [Hc Hv]. apply andb_true_iff in Hc as [Hn Ht].
  destruct (Name r) as [n|]; [|done].
  apply String.eqb_eq in Hn, Ht. subst n. rewrite Hsel, Hv in Hadd.
  destruct (float (Value r)) as [v|]; simpl in Hadd; [|done].
  injection Hadd as <-. exists v. split; [done|].
  unfold lists_at. rewrite get_update_eq. simpl. rewrite Ht.
  by rewrite get_update_eq.
Qed.

Lemma add_row_other (sel : list string) (td td' : test_data_t) (r : row) (p t : string) :
  add_row sel td r = Ok td' ->
  counts_for p t r = false ->
  lists_at p t td' = lists_at p t td.
Proof.
  unfold counts_for, add_row. intros Hadd Hc.
  destruct (Name r) as [n|]; [|by injection Hadd as <-].
  destruct (str_in n sel); [|by injection Hadd as <-].
  destruct (negb (Value r =? "N/A")) eqn:Hv; [|by injection Hadd as <-].
  destruct (float (Value r)) as [v|]; simpl in Hadd; [|done].
  injection Hadd as <-. unfold lists_at.
  destruct (String.eqb_spec n p) as [->|Hne].
  - rewrite get_update_eq. simpl. rewrite andb_true_r in Hc.
    apply String.eqb_neq in Hc. by rewrite get_update_ne.
  - by rewrite get_update_ne.
Qed.

(** After the first loop the lists of a selected patient and a test are
    those of their observations, in the order of the table, after what
    the lists held before. *)
Lemma build_lists (sel : list string) (rows : list row) (td0 td : test_data_t) (p t : string) :
  foldM (add_row sel) rows td0 = Ok td ->
  str_in p sel = true ->
  ∃ vs, traverse (fun r => float (Value r)) (observations rows p t) = Ok vs
        ∧ lists_at p t td
          = match observations rows p t with
            | [] => lists_at p t td0
            | _ :: _ =>
                Some (app_lists (default no_lists (lists_at p t td0))
                                (lists_of vs (observations rows p t)))
            end.
Proof.
  intros Hfold Hsel. revert td0 Hfold.
  induction rows as [|r rows IH]; intros td0 Hfold; simpl in Hfold.
  { injection Hfold as <-. by exists []. }
  destruct (add_row sel td0 r) as [td1|] eqn:Hadd; simpl in Hfold; [|done].
  destruct (IH td1 Hfold) as (vs & Hvs & Hl).
  unfold observations in *. cbn [List.filter].
  destruct (counts_for p t r) eqn:Hc.
  - destruct (add_row_counts _ _ _ _ _ _ Hadd Hsel Hc) as (v & Hv & Hl1).
    exists (v :: vs). cbn [traverse]. rewrite Hv, Hvs. split; [done|].
    rewrite Hl, Hl1. simpl.
    destruct (List.filter (counts_for p t) rows) as [|r' obs].
    + injection Hvs as <-. done.
    + by rewrite app_lists_assoc.
  - exists vs. split; [done|]. rewrite Hl.
    by rewrite (add_row_other _ _ _ _ _ _ Hadd Hc).
Qed.

Lemma build_lists_from_empty (sel : list string) (rows : list row) (td : test_data_t) (p t : string) :
  foldM (add_row sel) rows [] = Ok td ->
  str_in p sel = true ->
  ∃ vs, traverse (fun r => float (Value r)) (observations rows p t) = Ok vs
        ∧ lists_at p t td
          = if has_observation rows t p
            then Some (lists_of vs (observations rows p t))
            else None.
Proof.
  intros Hfold Hsel.
  destruct (build_lists _ _ _ _ p t Hfold Hsel) as (vs & Hvs & Hl).
  exists vs. split; [done|]. rewrite Hl. unfold has_observation.
  by destruct (observations rows p t).
Qed.

Lemma add_row_keys_once (sel : list string) (td td' : test_data_t) (r : row) :
  add_row sel td r = Ok td' -> keys_once td -> keys_once td'.
Proof.
  unfold add_row. intros Hadd Hk.
  destruct (Name r) as [n|]; [|by injection Hadd as <-].
  destruct (str_in n sel); [|by injection Hadd as <-].
  destruct (negb (Value r =? "N/A")); [|by injection Hadd as <-].
  destruct (float (Value r)) as [v|]; simpl in Hadd; [|done].
  injection Hadd as <-. intros p d.
  destruct (String.eqb_spec n p) as [->|Hne].
  - rewrite get_update_eq. intros [= <-]. apply NoDup_keys_update.
    destruct (get p td) as [d0|] eqn:Hg; simpl; [by apply (Hk p)|constructor].
  - rewrite get_update_ne by done. apply Hk.
Qed.

Lemma foldM_keys_once (sel : list string) (rows : list row) (td0 td : test_data_t) :
  foldM (add_row sel) rows td0 = Ok td -> keys_once td0 -> keys_once td.
Proof.
  revert td0. induction rows as [|r rows IH]; intros td0; simpl.
  - by intros [= <-].
  - destruct (add_row sel td0 r) as [td1|] eqn:Hadd; simpl; [|done].
    intros Hfold Hk. apply (IH td1 Hfold). by apply (add_row_keys_once _ _ _ _ Hadd).
Qed.

(* --------------------------------------------------------------------- *)
(** ** Dates and the sort                                                *)
(* --------------------------------------------------------------------- *)

Lemma dt_ltb_spec (a b : datetime) : dt_ltb a b = true <-> dt_lt a b.
Proof.
  unfold dt_ltb, dt_lt.
  rewrite !orb_true_iff, !andb_true_iff, !orb_true_iff, !andb_true_iff.
  rewrite !Z.ltb_lt, !Z.eqb_eq. tauto.
Qed.

Lemma dt_ltb_false (a b : datetime) : dt_ltb a b = false <-> ¬ dt_lt a b.
Proof. rewrite <- dt_ltb_spec. by destruct (dt_ltb a b). Qed.

Lemma dt_lt_asym (a b : datetime) : dt_lt a b -> ¬ dt_lt b a.
Proof. unfold dt_lt. lia. Qed.

Lemma dt_not_lt_trans (a b c : datetime) :
  ¬ dt_lt a b -> ¬ dt_lt b c -> ¬ dt_lt a c.
Proof. unfold dt_lt. lia. Qed.

Section sorting.
Context {A : Type}.
Implicit Types (x : datetime * A) (l : list (datetime * A)).

(** Not before: the relation between an element and those after it. *)
Let not_before (x y : datetime * A) : Prop := ¬ dt_lt x.1 y.1.

Lemma insert_desc_perm x l : Permutation (insert_desc x l) (x :: l).
Proof.
  induction l as [|y l IH]; simpl; [done|].
  destruct (dt_ltb x.1 y.1); [|done].
  rewrite IH. apply perm_swap.
Qed.

Lemma sorted_reverse_perm l : Permutation (sorted_reverse l) l.
Proof.
  induction l as [|x l IH]; simpl; [done|].
  rewrite insert_desc_perm. by constructor.
Qed.

Lemma insert_desc_sorted x l :
  StronglySorted not_before l -> StronglySorted not_before (insert_desc x l).
Proof.
  induction l as [|y l IH]; simpl; intros Hs.
  - repeat constructor.
  - apply StronglySorted_inv in Hs as [Hs Hy].
    destruct (dt_ltb x.1 y.1) eqn:Hlt.
    + apply dt_ltb_spec in Hlt. constructor; [by apply IH|].
      apply List.Forall_forall. intros z Hz.
      apply (Permutation_in _ (insert_desc_perm x l)) in Hz as [<-|Hz].
      * by apply dt_lt_asym.
      * by apply (proj1 (List.Forall_forall _ _) Hy).
    + apply dt_ltb_false in Hlt. constructor; [by constructor|].
      constructor; [done|].
      apply List.Forall_forall. intros z Hz.
      apply (dt_not_lt_trans _ y.1); [done|].
      by apply (proj1 (List.Forall_forall _ _) Hy).
Qed.

Lemma sorted_reverse_sorted l : StronglySorted not_before (sorted_reverse l).
Proof.
  induction l as [|x l IH]; simpl; [constructor|]. by apply insert_desc_sorted.
Qed.

Lemma sorted_reverse_newest_first l : newest_first (map fst (sorted_reverse l)).
Proof.
  unfold newest_first. pose proof (sorted_reverse_sorted l) as Hs.
  induction Hs as [|x l' Hs IH Hx]; simpl; [constructor|].
  constructor; [exact IH|].
  apply List.Forall_forall. intros d Hd. apply in_map_iff in Hd as (y & <- & Hy).
  by apply (proj1 (List.Forall_forall _ _) Hx).
Qed.

Lemma combine_fst_snd l : combine (map fst l) (map snd l) = l.
Proof. induction l as [|[d a] l IH]; simpl; [done|]. by rewrite IH. Qed.
End sorting.

(** Among equal dates the sort keeps the order of the table. *)
Lemma insert_desc_stable {A : Type} (x y : datetime * A) (l : list (datetime * A)) :
  ¬ dt_lt x.1 y.1 -> insert_desc x (y :: l) = x :: y :: l.
Proof. intros H%dt_ltb_false. simpl. by rewrite H. Qed.

(* --------------------------------------------------------------------- *)
(** ** The second loop: figures and lines                                *)
(* --------------------------------------------------------------------- *)

Lemma traverse_Forall2 {A B : Type} (f : A -> result B) (l : list A) (l' : list B) :
  traverse f l = Ok l' -> Forall2 (fun a b => f a = Ok b) l l'.
Proof.
  revert l'. induction l as [|a l IH]; intros l'; simpl.
  - intros [= <-]. constructor.
  - destruct (f a) as [b|] eqn:Hb; simpl; [|done].
    destruct (traverse f l) as [bs|]; simpl; [|done].
    intros [= <-]. constructor; [done|]. by apply IH.
Qed.

Lemma Forall2_elem_of_r {A B : Type} (P : A -> B -> Prop) (l : list A) (k : list B) (y : B) :
  Forall2 P l k -> y ∈ k -> ∃ x, x ∈ l ∧ P x y.
Proof.
  induction 1 as [|x y' l k HP _ IH]; [by intros ?%elem_of_nil|].
  intros [->|Hy]%elem_of_cons.
  - exists x. split; [by left|done].
  - destruct (IH Hy) as (x' & Hx' & HP'). exists x'. split; [by right|done].
Qed.

Lemma Forall2_impl_elem_of_l {A B : Type} (P Q : A -> B -> Prop) (l : list A) (k : list B) :
  Forall2 P l k -> (∀ x y, x ∈ l -> P x y -> Q x y) -> Forall2 Q l k.
Proof.
  induction 1 as [|x y l k HP _ IH]; intros HQ; constructor.
  - apply HQ; [by left|done].
  - apply IH. intros x' y' Hx'. apply HQ. by right.
Qed.

Lemma traverse_map {A B C : Type} (f : B -> result C) (g : A -> B) (l : list A) :
  traverse f (map g l) = traverse (fun a => f (g a)) l.
Proof. induction l as [|a l IH]; simpl; [done|]. by rewrite IH. Qed.

(** What a line of a figure is made of. *)
Lemma make_scatter_spec (p : string) (l : test_lists) (s : scatter) :
  make_scatter p l = Ok s ->
  sc_name s = p
  ∧ ∃ parsed,
      traverse strptime (dates l) = Ok parsed
      ∧ sc_x s = map fst (sorted_reverse (combine parsed (values l)))
      ∧ sc_y s = map snd (sorted_reverse (combine parsed (values l)))
      ∧ ∃ range0 others,
          range l = range0 :: others
          ∧ reference_bounds range0 = Ok (sc_low s, sc_high s).
Proof.
  unfold make_scatter.
  destruct (traverse strptime (dates l)) as [parsed|]; simpl; [|done].
  destruct (sorted_reverse (combine parsed (values l))) as [|first sorted_data] eqn:Hs;
    [done|].
  destruct (range l) as [|range0 others]; [done|].
  fold (reference_bounds range0).
  destruct (reference_bounds range0) as [[lo hi]|] eqn:Hb; simpl; [|done].
  intros [= <-]. simpl. split; [done|]. exists parsed.
  split; [done|]. split; [by rewrite Hs|]. split; [by rewrite Hs|].
  by exists range0, others.
Qed.

Lemma add_scatters_spec (td : test_data_t) (t : string) (sel : list string) (ss : list scatter) :
  add_scatters td t sel = Ok ss ->
  Forall2 (fun p s => ∃ l, lists_at p t td = Some l ∧ make_scatter p l = Ok s)
          (List.filter (fun p => if lists_at p t td is Some _ then true else false) sel)
          ss.
Proof.
  revert ss. induction sel as [|p sel IH]; intros ss; simpl.
  - intros [= <-]. constructor.
  - fold (lists_at p t td). destruct (lists_at p t td) as [l|] eqn:Hl; [|apply IH].
    destruct (make_scatter p l) as [s|] eqn:Hs; simpl; [|done].
    destruct (add_scatters td t sel) as [ss'|]; simpl; [|done].
    intros [= <-]. constructor; [by exists l|]. by apply IH.
Qed.

Lemma filter_ext_elem_of {A : Type} (f g : A -> bool) (l : list A) :
  (∀ a, a ∈ l -> f a = g a) -> List.filter f l = List.filter g l.
Proof.
  intros H. apply filter_ext_in. intros a Ha. apply H. by apply list_elem_of_In.
Qed.

(** The figures of the callback: one for every test of the first selected
    patient, holding a line for every selected patient who has the test,
    made from the observations of that patient and that test. *)
Lemma update_charts_spec (first : string) (others : list string)
    (table_data : list row) (figs : list figure) :
  update_charts (first :: others) table_data = Ok figs ->
  NoDup (map fig_title figs)
  ∧ (∀ t, t ∈ map fig_title figs <-> has_observation table_data t first = true)
  ∧ Forall (fun fig =>
      Forall2 (fun p s =>
                 ∃ vs, traverse (fun r => float (Value r))
                                (observations table_data p (fig_title fig)) = Ok vs
                       ∧ make_scatter p
                           (lists_of vs (observations table_data p (fig_title fig)))
                         = Ok s)
              (List.filter (has_observation table_data (fig_title fig)) (first :: others))
              (fig_data fig))
      figs.
Proof.
  unfold update_charts.
  destruct table_data as [|r0 rows0] eqn:Hrows.
  { intros [= <-]. split; [constructor|]. split; [|constructor].
    intros t. split; [by intros ?%elem_of_nil | done]. }
  rewrite <- Hrows. clear Hrows r0 rows0.
  assert (Hfirst : first ∈ first :: others) by by left.
  remember (first :: others) as sel eqn:Heqsel. clear Heqsel others.
  destruct (foldM (add_row sel) table_data []) as [td|] eqn:Hfold; simpl; [|done].
  intros Hfigs%traverse_Forall2.
  assert (Hsel : ∀ p, p ∈ sel -> str_in p sel = true).
  { intros p. by rewrite str_in_elem_of. }
  assert (Htitles : map fig_title figs = keys (default [] (get first td))).
  { induction Hfigs as [|t fig ts figs' Hfig _ IH]; simpl; [done|].
    rewrite IH. f_equal. cbv beta in Hfig.
    destruct (add_scatters td t sel); simpl in Hfig; [|done]. by injection Hfig as <-. }
  split; [|split].
  - rewrite Htitles. destruct (get first td) as [d|] eqn:Hd; simpl; [|constructor].
    apply (foldM_keys_once _ _ _ _ Hfold) in Hd; [done|]. by intros p d'.
  - intros t. rewrite Htitles, <- get_is_Some. fold (lists_at first t td).
    destruct (build_lists_from_empty _ _ _ first t Hfold (Hsel _ Hfirst))
      as (vs & _ & ->).
    destruct (has_observation table_data t first); split;
      (done || by intros [? ?] || by eexists).
  - apply List.Forall_forall. intros fig Hfig.
    apply list_elem_of_In in Hfig.
    apply (Forall2_elem_of_r _ _ _ _ Hfigs) in Hfig as (t & _ & Hfig).
    cbv beta in Hfig. destruct (add_scatters td t sel) as [ss|] eqn:Hss; simpl in Hfig; [|done].
    injection Hfig as <-. simpl.
    apply add_scatters_spec in Hss.
    rewrite (filter_ext_elem_of _ (has_observation table_data t)) in Hss.
    + apply (Forall2_impl_elem_of_l _ _ _ _ Hss).
      intros p s Hp (l & Hl & Hs).
      apply list_elem_of_In, filter_In in Hp as [Hp _]. apply list_elem_of_In in Hp.
      destruct (build_lists_from_empty _ _ _ p t Hfold (Hsel _ Hp)) as (vs & Hvs & Hl').
      exists vs. split; [done|]. rewrite Hl in Hl'.
      destruct (has_observation table_data t p); [|done]. by injection Hl' as ->.
    + intros p Hp.
      destruct (build_lists_from_empty _ _ _ p t Hfold (Hsel _ Hp)) as (vs & _ & ->).
      by destruct (has_observation table_data t p).
Qed.

(** A line of a figure of the callback, in terms of the table. *)
Lemma series_of_figure (first : string) (others : list string)
    (table_data : list row) (figs : list figure) (fig : figure) (s : scatter) :
  update_charts (first :: others) table_data = Ok figs ->
  fig ∈ figs -> s ∈ fig_data fig ->
  let obs := observations table_data (sc_name s) (fig_title fig) in
  sc_name s ∈ first :: others
  ∧ ∃ vs ds,
      traverse (fun r => float (Value r)) obs = Ok vs
      ∧ traverse strptime (map Date obs) = Ok ds
      ∧ sc_x s = map fst (sorted_reverse (combine ds vs))
      ∧ sc_y s = map snd (sorted_reverse (combine ds vs))
      ∧ ∃ r0 others0,
          obs = r0 :: others0
          ∧ reference_bounds (ReferenceRange r0) = Ok (sc_low s, sc_high s).
Proof.
  intros (_ & _ & Hall)%update_charts_spec Hfig Hs.
  apply list_elem_of_In in Hfig.
  apply (proj1 (List.Forall_forall _ _) Hall) in Hfig.
  apply (Forall2_elem_of_r _ _ _ _ Hfig) in Hs as (p & Hp & vs & Hvs & Hmk).
  apply make_scatter_spec in Hmk as (Hname & ds & Hds & Hx & Hy & r & rs & Hr & Hb).
  subst p. cbv zeta. split.
  { apply list_elem_of_In, filter_In in Hp as [Hp _]. by apply list_elem_of_In. }
  exists vs, ds. simpl in Hds, Hx, Hy, Hr. repeat (split; [done|]).
  destruct (observations table_data (sc_name s) (fig_title fig)) as [|r0 others0];
    [done|].
  exists r0, others0. split; [done|]. simpl in Hr. by injection Hr as -> _.
Qed.

Lemma Forall2_map_eq {A B : Type} (f : B -> A) (l : list A) (k : list B) :
  Forall2 (fun a b => f b = a) l k -> map f k = l.
Proof. induction 1 as [|a b l k Hab _ IH]; simpl; [done|]. by rewrite Hab, IH. Qed.

(** C6: when the callback returns, there is one figure for every test
    of which the first selected patient has an observation, and for no
    other test; a figure holds one line for every selected patient who
    has an observation of its test, in the order of the selection; and
    the points of a line are all the observations of its patient and
    test, each once. *)
Theorem figures_follow_the_first_selected_patient (first : string) (others : list string)
    (table_data : list row) (figs : list figure) :
  update_charts (first :: others) table_data = Ok figs ->
  NoDup (map fig_title figs)
  ∧ (∀ t, t ∈ map fig_title figs <-> observations table_data first t ≠ [])
  ∧ ∀ fig, fig ∈ figs ->
      map sc_name (fig_data fig)
      = List.filter (has_observation table_data (fig_title fig)) (first :: others)
      ∧ ∀ s, s ∈ fig_data fig ->
          ∃ vs ds,
            traverse (fun r => float (Value r))
                     (observations table_data (sc_name s) (fig_title fig)) = Ok vs
            ∧ traverse strptime
                       (map Date (observations table_data (sc_name s) (fig_title fig)))
              = Ok ds
            ∧ Permutation (combine (sc_x s) (sc_y s)) (combine ds vs).
Proof.
  intros Hup. pose proof (update_charts_spec _ _ _ _ Hup) as (Hnd & Htitles & Hall).
  split; [done|]. split.
  { intros t. rewrite Htitles. unfold has_observation.
    by destruct (observations table_data first t). }
  intros fig Hfig. split.
  - apply list_elem_of_In in Hfig.
    apply (proj1 (List.Forall_forall _ _) Hall) in Hfig.
    apply Forall2_map_eq. apply (Forall2_impl _ _ _ _ Hfig).
    intros p s (vs & _ & Hmk). by apply make_scatter_spec in Hmk as [? _].
  - intros s Hs.
    destruct (series_of_figure _ _ _ _ _ _ Hup Hfig Hs)
      as (_ & vs & ds & Hvs & Hds & Hx & Hy & _).
    exists vs, ds. split; [done|]. split; [done|].
    rewrite Hx, Hy, combine_fst_snd. apply sorted_reverse_perm.
Qed.

(** C7: when the callback returns, the two reference lines of a line
    are read from the 'Reference Range' of the first observation of its
    patient and test in the order of the table. *)
Theorem reference_lines_come_from_the_first_row (first : string) (others : list string)
    (table_data : list row) (figs : list figure) :
  update_charts (first :: others) table_data = Ok figs ->
  ∀ fig s, fig ∈ figs -> s ∈ fig_data fig ->
    ∃ r0 others0,
      observations table_data (sc_name s) (fig_title fig) = r0 :: others0
      ∧ reference_bounds (ReferenceRange r0) = Ok (sc_low s, sc_high s).
Proof.
  intros Hup fig s Hfig Hs.
  by destruct (series_of_figure _ _ _ _ _ _ Hup Hfig Hs)
    as (_ & vs & ds & _ & _ & _ & _ & Hb).
Qed.

(** C8: when the callback returns, the dates of every line run from
    the newest to the oldest; the points are the observations of the
    patient and the test, each with the date read from its 'Date' as day,
    month and year between slashes. *)
Theorem points_are_ordered_newest_first (first : string) (others : list string)
    (table_data : list row) (figs : list figure) :
  update_charts (first :: others) table_data = Ok figs ->
  ∀ fig s, fig ∈ figs -> s ∈ fig_data fig ->
    let obs := observations table_data (sc_name s) (fig_title fig) in
    newest_first (sc_x s)
    ∧ ∃ vs ds,
        traverse (fun r => float (Value r)) obs = Ok vs
        ∧ traverse strptime (map Date obs) = Ok ds
        ∧ Permutation (combine (sc_x s) (sc_y s)) (combine ds vs)
        ∧ Forall2 (fun r d =>
                     ∃ sd sm sy, Date r = Some (dmy sd sm sy)
                                 ∧ d = mkDate (int_of sy) (int_of sm) (int_of sd))
                  obs ds.
Proof.
  intros Hup fig s Hfig Hs.
  destruct (series_of_figure _ _ _ _ _ _ Hup Hfig Hs)
    as (_ & vs & ds & Hvs & Hds & Hx & Hy & _).
  cbv zeta. split; [rewrite Hx; apply sorted_reverse_newest_first|].
  exists vs, ds. split; [done|]. split; [done|]. split.
  - rewrite Hx, Hy, combine_fst_snd. apply sorted_reverse_perm.
  - rewrite traverse_map in Hds. apply traverse_Forall2 in Hds.
    apply (Forall2_impl _ _ _ _ Hds). intros r d. apply strptime_day_month_year.
Qed.

(** C6, on a table of three rows and both patients selected. *)
Lemma figures_follow_the_first_selected_patient_witness :
  ∃ figs,
    update_charts ["Asha Rao"; "Ben Roy"] [asha_2023; asha_2020; ben_2021] = Ok figs
    ∧ NoDup (map fig_title figs)
    ∧ ∀ t, t ∈ map fig_title figs
           <-> observations [asha_2023; asha_2020; ben_2021] "Asha Rao" t ≠ [].
Proof.
  eexists. split; [vm_compute; reflexivity|].
  pose proof (figures_follow_the_first_selected_patient
                "Asha Rao" ["Ben Roy"] [asha_2023; asha_2020; ben_2021] _
                ltac:(vm_compute; reflexivity)) as (Hnd & Ht & _).
  split; [exact Hnd | exact Ht].
Defined.

(** C6 as stated fails: with both patients selected, the second one has
    an observation of TSH, which the first one has not; the only figure is
    that of Hemoglobin, with the line of the first patient, and the pair
    of the second patient and TSH has no line. *)
Lemma test_of_another_patient_gets_no_line :
  let table_data := [asha_2023; asha_2020; ben_2021] in
  observations table_data "Ben Roy" "TSH" = [ben_2021]
  ∧ ∃ figs,
      update_charts ["Asha Rao"; "Ben Roy"] table_data = Ok figs
      ∧ map fig_title figs = ["Hemoglobin"]
      ∧ ¬ ∃ fig s, fig ∈ figs ∧ s ∈ fig_data fig
                   ∧ fig_title fig = "TSH" ∧ sc_name s = "Ben Roy".
Proof.
  split; [reflexivity|]. eexists. split; [vm_compute; reflexivity|].
  split; [reflexivity|].
  intros (fig & s & Hfig & _ & Ht & _).
  apply list_elem_of_singleton in Hfig. subst fig. discriminate Ht.
Qed.

(** C7, on the two results of one patient. *)
Lemma reference_lines_come_from_the_first_row_witness :
  ∃ fig s,
    update_charts ["Asha Rao"] [asha_2023; asha_2020] = Ok [fig]
    ∧ fig_data fig = [s]
    ∧ ∃ r0 others0,
        observations [asha_2023; asha_2020] (sc_name s) (fig_title fig) = r0 :: others0
        ∧ reference_bounds (ReferenceRange r0) = Ok (sc_low s, sc_high s).
Proof.
  eexists. eexists. split; [vm_compute; reflexivity|]. split; [reflexivity|].
  eapply (reference_lines_come_from_the_first_row
            "Asha Rao" [] [asha_2023; asha_2020] _ ltac:(vm_compute; reflexivity)).
  - apply list_elem_of_singleton. reflexivity.
  - apply list_elem_of_singleton. reflexivity.
Defined.

(** C7 as stated fails: of the two results the one of 2020 is the
    earliest, with the range 12.0 - 16.0, and it comes second in the
    table; the reference lines are those of the result of 2023, the first
    in the table. *)
Lemma reference_lines_not_from_the_earliest_date :
  ∃ s,
    update_charts ["Asha Rao"] [asha_2023; asha_2020]
    = Ok [mkFigure "Hemoglobin" [s]]
    ∧ sc_x s = [mkDate 2023 3 12; mkDate 2020 1 1]
    ∧ strptime (Date asha_2020) = Ok (mkDate 2020 1 1)
    ∧ reference_bounds (ReferenceRange asha_2020) = Ok (BStr "12.0", BStr "16.0")
    ∧ (sc_low s, sc_high s) = (BStr "13.0", BStr "17.0")
    ∧ Ok (sc_low s, sc_high s) ≠ reference_bounds (ReferenceRange asha_2020).
Proof.
  eexists. split; [vm_compute; reflexivity|].
  repeat split; try reflexivity. vm_compute. discriminate.
Qed.

(** C8, on the two results of one patient: the result of 2023 comes
    first. *)
Lemma points_are_ordered_newest_first_witness :
  ∃ fig s,
    update_charts ["Asha Rao"] [asha_2020; asha_2023] = Ok [fig]
    ∧ fig_data fig = [s]
    ∧ sc_x s = [mkDate 2023 3 12; mkDate 2020 1 1]
    ∧ newest_first (sc_x s).
Proof.
  eexists. eexists. split; [vm_compute; reflexivity|]. split; [reflexivity|].
  split; [reflexivity|].
  eapply proj1.
  eapply (points_are_ordered_newest_first
            "Asha Rao" [] [asha_2020; asha_2023] _ ltac:(vm_compute; reflexivity)).
  - apply list_elem_of_singleton. reflexivity.
  - apply list_elem_of_singleton. reflexivity.
Defined.

(* ===================================================================== *)
(** * Further properties of the validator and of the classification      *)
(* ===================================================================== *)

(** X1: the validator works entry by entry: the valid entries of two
    batches put together are those of the first followed by those of the
    second, so several documents can be validated together or apart. *)
Theorem clean_data_app (data1 data2 : list row) :
  clean_data (data1 ++ data2) = clean_data data1 ++ clean_data data2.
Proof.
  induction data1 as [|entry data1 IH]; [done|].
  cbn [clean_data app]. destruct (is_valid entry); by rewrite IH.
Qed.

Lemma clean_data_all_valid (data : list row) :
  Forall (fun entry => is_valid entry = true) data -> clean_data data = data.
Proof.
  induction 1 as [|entry data Hv _ IH]; [done|].
  cbn [clean_data]. by rewrite Hv, IH.
Qed.

Lemma clean_data_valid (data : list row) :
  Forall (fun entry => is_valid entry = true) (clean_data data).
Proof.
  induction data as [|entry data IH]; [constructor|].
  cbn [clean_data]. destruct (is_valid entry) eqn:Hv; [by constructor|done].
Qed.

(** X2: validating twice changes nothing: what the validator returns
    passes it unchanged. *)
Theorem clean_data_idempotent (data : list row) :
  clean_data (clean_data data) = clean_data data.
Proof. apply clean_data_all_valid, clean_data_valid. Qed.

(** X3: the category of a classified item is one of the three names
    'Low', 'Normal' and 'High'. *)
Theorem classify_three_categories (item : row) (c : string) :
  classify item = Ok c -> c = "Low" ∨ c = "Normal" ∨ c = "High".
Proof.
  rewrite classify_decompose.
  destruct (float (Value item)) as [v|]; simpl; [|done].
  destruct (parse_range (ReferenceRange item)) as [r|]; simpl; [|done].
  intros [= <-]. destruct (policy r v); auto.
Qed.

(** X3, on an item. *)
Lemma classify_three_categories_witness :
  classify (mkRow None None "TSH" "6.1" "µIU/mL" "<4.5" None) = Ok "High"
  ∧ ("High" = "Low" ∨ "High" = "Normal" ∨ "High" = "High").
Proof.
  split; [reflexivity|].
  apply (classify_three_categories
           (mkRow None None "TSH" "6.1" "µIU/mL" "<4.5" None) "High").
  reflexivity.
Defined.

(** X4: the classification of an item raises nothing but ValueError and
    IndexError, and IndexError exactly when the value converts and the
    reference range is the empty text. *)
Theorem classify_exceptions (item : row) (e : exn) :
  classify item = Raise e ->
  (e = ValueError ∨ e = IndexError)
  ∧ (e = IndexError
     <-> (∃ v, float (Value item) = Ok v) ∧ ReferenceRange item = "").
Proof.
  unfold classify.
  destruct (float (Value item)) as [v|e0] eqn:Hv; simpl.
  - destruct (length (split "-" (ReferenceRange item)) =? 2)%nat eqn:Hlen.
    + assert (Hne : ReferenceRange item ≠ "").
      { intros Hr. rewrite Hr in Hlen. discriminate. }
      destruct (float (strip (nth 0 _ _))) as [lo|e1] eqn:Hlo; simpl.
      * destruct (float (strip (nth 1 _ _))) as [hi|e2] eqn:Hhi; simpl.
        -- destruct (flt v lo); [done|]. by destruct (fgt v hi).
        -- intros [= <-]. rewrite (float_raises_ValueError _ _ Hhi).
           split; [by left|]. split; [done|]. by intros [_ ?].
      * intros [= <-]. rewrite (float_raises_ValueError _ _ Hlo).
        split; [by left|]. split; [done|]. by intros [_ ?].
    + destruct (ReferenceRange item) as [|sign s] eqn:Hr; simpl.
      * intros [= <-]. split; [by right|]. split; [|done]. intros _. split; [by exists v|done].
      * destruct (Ascii.eqb sign "<");
          (destruct (float s) as [t|e1] eqn:Ht; simpl;
           [ first [by destruct (fgt v t) | by destruct (flt v t)]
           | intros [= <-]; rewrite (float_raises_ValueError _ _ Ht);
             split; [by left|]; split; [done|]; by intros [_ ?] ]).
  - intros [= <-]. rewrite (float_raises_ValueError _ _ Hv).
    split; [by left|]. split; [done|]. by intros [[v [=]] _].
Qed.

(** X4, on an item without a reference range. *)
Lemma classify_exceptions_witness :
  classify (mkRow None None "TSH" "6.1" "µIU/mL" "" None) = Raise IndexError
  ∧ (IndexError = IndexError <-> (∃ v, float "6.1" = Ok v) ∧ "" = "").
Proof.
  split; [reflexivity|].
  apply (classify_exceptions (mkRow None None "TSH" "6.1" "µIU/mL" "" None) IndexError).
  reflexivity.
Defined.

(* --------------------------------------------------------------------- *)
(** ** The order of floats                                               *)
(* --------------------------------------------------------------------- *)

Lemma flt_Fin (x y : Q) : flt (Fin x) (Fin y) = true <-> (x < y)%Q.
Proof.
  simpl. rewrite negb_true_iff. split.
  - intros H. apply Qnot_le_lt. intros Hle. apply Qle_bool_iff in Hle. congruence.
  - intros H. destruct (Qle_bool y x) eqn:Hle; [|done].
    apply Qle_bool_iff in Hle. by apply Qlt_not_le in H.
Qed.

Lemma fle_Fin (x y : Q) : fle (Fin x) (Fin y) = true <-> (x <= y)%Q.
Proof. apply Qle_bool_iff. Qed.

Lemma flt_fle_trans (a b c : pyfloat) :
  flt a b = true -> fle b c = true -> flt a c = true.
Proof.
  destruct a as [x|[|]|], b as [y|[|]|], c as [z|[|]|]; try done.
  rewrite !flt_Fin, fle_Fin. apply Qlt_le_trans.
Qed.

Lemma fle_flt_trans (a b c : pyfloat) :
  fle a b = true -> flt b c = true -> flt a c = true.
Proof.
  destruct a as [x|[|]|], b as [y|[|]|], c as [z|[|]|]; try done.
  rewrite !flt_Fin, fle_Fin. apply Qle_lt_trans.
Qed.

(** X5: for one reference range the category grows with the value: of
    two classified items with the same range, the one with the smaller
    value is never in a higher category. *)
Theorem classify_monotone (item1 item2 : row) (v1 v2 : pyfloat) (c1 c2 : string) :
  ReferenceRange item1 = ReferenceRange item2 ->
  float (Value item1) = Ok v1 -> float (Value item2) = Ok v2 ->
  fle v1 v2 = true ->
  classify item1 = Ok c1 -> classify item2 = Ok c2 ->
  (rank c1 ≤ rank c2)%nat.
Proof.
  intros Hr Hv1 Hv2 Hle. rewrite !classify_decompose, Hv1, Hv2, Hr. simpl.
  destruct (parse_range (ReferenceRange item2)) as [r|]; simpl; [|done].
  intros [= <-] [= <-]. destruct r as [lo hi|[|] t]; simpl; unfold fgt.
  - destruct (flt v1 lo) eqn:H1; [destruct (flt v2 lo), (flt hi v2); vm_compute; lia|].
    destruct (flt v2 lo) eqn:H2.
    { by rewrite (fle_flt_trans _ _ _ Hle H2) in H1. }
    destruct (flt hi v1) eqn:H3; [|destruct (flt hi v2); vm_compute; lia].
    by rewrite (flt_fle_trans _ _ _ H3 Hle).
  - destruct (flt t v1) eqn:H1; [|destruct (flt t v2); vm_compute; lia].
    by rewrite (flt_fle_trans _ _ _ H1 Hle).
  - destruct (flt v2 t) eqn:H2; [|destruct (flt v1 t); vm_compute; lia].
    by rewrite (fle_flt_trans _ _ _ Hle H2).
Qed.

(** X5, on 12.5 and 18.2 against 13.0 - 17.0. *)
Lemma classify_monotone_witness :
  classify (mkRow None None "Hemoglobin" "12.5" "g/dL" "13.0 - 17.0" None) = Ok "Low"
  ∧ classify (mkRow None None "Hemoglobin" "18.2" "g/dL" "13.0 - 17.0" None) = Ok "High"
  ∧ (rank "Low" ≤ rank "High")%nat.
Proof.
  split; [reflexivity|]. split; [reflexivity|].
  apply (classify_monotone
           (mkRow None None "Hemoglobin" "12.5" "g/dL" "13.0 - 17.0" None)
           (mkRow None None "Hemoglobin" "18.2" "g/dL" "13.0 - 17.0" None)
           (Fin 12.5) (Fin 18.2) "Low" "High"); reflexivity.
Defined.

(** X6: a bounded range written backwards, the larger bound first,
    leaves no room for Normal: every value that is a number is Low or
    High. *)
Theorem reversed_range_is_never_normal (item : row) (v lo hi : pyfloat) (c : string) :
  float (Value item) = Ok v -> is_nan v = false ->
  parse_range (ReferenceRange item) = Ok (Bounded lo hi) ->
  flt hi lo = true ->
  classify item = Ok c ->
  c ≠ "Normal" ∧ (c = "Low" <-> flt v lo = true) ∧ (c = "High" <-> flt v lo = false).
Proof.
  intros Hv Hnan Hr Hrev. rewrite classify_decompose, Hv, Hr. simpl.
  intros [= <-]. unfold fgt. destruct (flt v lo) eqn:H1; simpl; [by intuition|].
  assert (Hlo : is_nan lo = false) by by destruct hi as [?|[|]|], lo as [?|[|]|].
  apply flt_false_iff_fle in H1; [|done..].
  rewrite (flt_fle_trans _ _ _ Hrev H1). simpl. by intuition.
Qed.

(** X6, on 15 against 17.0 - 13.0. *)
Lemma reversed_range_is_never_normal_witness :
  classify (mkRow None None "Hemoglobin" "15" "g/dL" "17.0 - 13.0" None) = Ok "Low"
  ∧ "Low" ≠ "Normal".
Proof.
  split; [reflexivity|].
  apply (reversed_range_is_never_normal
           (mkRow None None "Hemoglobin" "15" "g/dL" "17.0 - 13.0" None)
           (Fin 15) (Fin 17.0) (Fin 13.0) "Low"); reflexivity.
Defined.

(* --------------------------------------------------------------------- *)
(** ** Classifying again                                                 *)
(* --------------------------------------------------------------------- *)

Lemma traverse_classify_six (rows rows' : list row) :
  six <$> rows = six <$> rows' ->
  traverse (fun r => let* c := classify r in Ok (set_Category c r)) rows
  = traverse (fun r => let* c := classify r in Ok (set_Category c r)) rows'.
Proof.
  revert rows'. induction rows as [|r rows IH]; intros [|r' rows']; try done.
  rewrite !fmap_cons. intros Heq.
  assert (Hr : six r = six r') by congruence.
  assert (Hrows : six <$> rows = six <$> rows') by congruence.
  simpl.
  rewrite (classify_six r r' Hr). destruct (classify r') as [c|]; simpl; [|done].
  rewrite (IH rows' Hrows), (set_Category_six c r r' Hr). done.
Qed.

Lemma traverse_classify_keeps_six (rows out : list row) :
  traverse (fun r => let* c := classify r in Ok (set_Category c r)) rows = Ok out ->
  six <$> out = six <$> rows.
Proof.
  revert out. induction rows as [|r rows IH]; intros out; simpl.
  - by intros [= <-].
  - destruct (classify r) as [c|]; simpl; [|done].
    destruct (traverse _ rows) as [out'|]; simpl; [|done].
    intros [= <-]. simpl. f_equal. by apply IH.
Qed.

(** X7: the classification looks at the six original fields only: a
    category that is already there is overwritten, two tables that agree
    on the six fields are classified alike, and classifying the result
    once more returns it unchanged. *)
Theorem analyze_table_depends_on_six_fields (table_data table_data' : list row) :
  (six <$> table_data = six <$> table_data' ->
   analyze_table table_data = analyze_table table_data')
  ∧ (∀ out, analyze_table table_data = Ok out -> analyze_table out = Ok out).
Proof.
  rewrite !analyze_table_traverse. split; [apply traverse_classify_six|].
  intros out Hout. rewrite analyze_table_traverse, <- Hout.
  by apply traverse_classify_six, traverse_classify_keeps_six.
Qed.

(** X7, on a table of two rows. *)
Lemma analyze_table_depends_on_six_fields_witness :
  ∃ out, analyze_table [asha_2023; ben_2021] = Ok out ∧ analyze_table out = Ok out.
Proof.
  eexists. split; [vm_compute; reflexivity|].
  apply (proj2 (analyze_table_depends_on_six_fields [asha_2023; ben_2021] [])).
  vm_compute; reflexivity.
Defined.

(* ===================================================================== *)
(** * Further properties of the extraction and of the upload             *)
(* ===================================================================== *)

(* --------------------------------------------------------------------- *)
(** ** Texts                                                             *)
(* --------------------------------------------------------------------- *)


Lemma string_forall_app (p : ascii -> bool) (s t : string) :
  string_forall p (s ++ t) = string_forall p s && string_forall p t.
Proof.
  induction s as [|c s IH]; [done|]. rewrite append_cons. simpl.
  by rewrite IH, andb_assoc.
Qed.









(* --------------------------------------------------------------------- *)
(** ** What a match of the pattern of a test line holds                  *)
(* --------------------------------------------------------------------- *)







(** The rows of a document, before the validator. *)
Lemma extract_row (pages : list string) (r : row) :
  r ∈ extract_all_data_from_pdf pages ->
  is_valid r = true
  ∧ Name r = document_name pages
  ∧ Date r = document_date pages
  ∧ ∃ m, m ∈ findall pattern (text_of pages)
         ∧ TestName r = strip (group 1 m) ∧ Value r = strip (group 2 m)
         ∧ Unit r = strip (group 3 m) ∧ ReferenceRange r = strip (group 4 m).
Proof.
  intros Hin. split.
  { apply list_elem_of_In in Hin.
    by apply (proj1 (List.Forall_forall _ _) (clean_data_valid _)) in Hin. }
  unfold extract_all_data_from_pdf in Hin. cbv zeta in Hin.
  apply clean_data_elem_of, list_elem_of_fmap in Hin as (m & -> & Hm). simpl.
  split; [done|]. split; [done|]. by exists m.
Qed.

(** X8: the rows of one document all carry the one name and the one
    date found in it, have a test name and a unit of the two lists, and no
    category yet. *)
Theorem rows_of_a_document_share_name_and_date (pages : list string) (r : row) :
  r ∈ extract_all_data_from_pdf pages ->
  Name r = document_name pages
  ∧ Date r = document_date pages
  ∧ TestName r ∈ VALID_TEST_NAMES ∧ Unit r ∈ VALID_UNITS
  ∧ Category r = None.
Proof.
  intros Hin. destruct (extract_row _ _ Hin) as (Hv & Hn & Hd & _).
  apply is_valid_spec in Hv. destruct (extract_rows _ _ Hin) as [Hc _].
  tauto.
Qed.

(** X8, on a document of three lines. *)
Lemma rows_of_a_document_share_name_and_date_witness :
  let pages := [document ["Hemoglobin 13.5 g/dL 13.0 - 17.0";
                          "Name: Mr. John Smith"; "12/03/2023"]] in
  let r := mkRow (Some "John Smith") (Some "12/03/2023") "Hemoglobin" "13.5"
                 "g/dL" "13.0 - 17.0" None in
  r ∈ extract_all_data_from_pdf pages ∧ Name r = document_name pages.
Proof.
  intros pages r.
  assert (Hin : r ∈ extract_all_data_from_pdf pages).
  { vm_compute. apply list_elem_of_singleton. reflexivity. }
  split; [exact Hin|].
  exact (proj1 (rows_of_a_document_share_name_and_date pages r Hin)).
Defined.








(* --------------------------------------------------------------------- *)
(** ** The upload                                                        *)
(* --------------------------------------------------------------------- *)

(** The table and the options of an upload. *)
Lemma handle_upload_outputs (contents : list (list string)) (filenames : list string) :
  let files_data :=
    flat_map (fun cf => extract_all_data_from_pdf cf.1) (combine contents filenames) in
  (handle_upload (Some contents) filenames).1.1.2 = files_data
  ∧ (handle_upload (Some contents) filenames).2
    = options_of (elements (list_to_set (map Name files_data) : gset (option string))).
Proof.
  cbv zeta. unfold handle_upload.
  set (files_data := flat_map _ (combine contents filenames)).
  assert (Hrows : ∀ r, r ∈ files_data -> Category r = None).
  { intros r Hin%list_elem_of_In. apply in_flat_map in Hin as (cf & _ & Hin).
    apply list_elem_of_In in Hin. by apply extract_rows in Hin as [? _]. }
  destruct files_data as [|r0 rows0] eqn:Hfd; cbn [fst snd].
  { split; [done|]. simpl. by rewrite elements_empty. }
  rewrite <- Hfd in *. clear Hfd r0 rows0. split; [|done].
  induction files_data as [|r rows IH]; [done|]. simpl. f_equal.
  - specialize (Hrows r ltac:(by left)). destruct r; simpl in *. by subst.
  - apply IH. intros r' Hin. apply Hrows. by right.
Qed.

(** X12: an upload offers at most one name per file read, a file being
    read when it has both a content and a file name; and every row of its
    table has a test name and a unit of the two lists and no category. *)
Theorem upload_offers_at_most_one_name_per_file
    (contents : list (list string)) (filenames : list string) :
  let table_data := (handle_upload (Some contents) filenames).1.1.2 in
  let options := (handle_upload (Some contents) filenames).2 in
  (length options ≤ Nat.min (length contents) (length filenames))%nat
  ∧ Forall (fun r => TestName r ∈ VALID_TEST_NAMES ∧ Unit r ∈ VALID_UNITS
                     ∧ Category r = None) table_data.
Proof.
  cbv zeta. destruct (handle_upload_outputs contents filenames) as [-> ->].
  set (files := combine contents filenames). split.
  - rewrite <- length_combine. fold files.
    rewrite <- (length_fmap (fun cf => document_name cf.1) files).
    rewrite <- (length_fmap opt_value), <- (length_fmap Some).
    apply submseteq_length, NoDup_submseteq.
    { apply NoDup_fmap; [apply _|]. apply NoDup_options_of, NoDup_elements. }
    intros name (n & -> & Hn)%list_elem_of_fmap.
    apply elem_of_options_of in Hn as [Hn _].
    apply elem_of_elements, elem_of_list_to_set in Hn.
    apply list_elem_of_fmap in Hn as (r & Hr & Hin).
    apply list_elem_of_In, in_flat_map in Hin as (cf & Hcf & Hin).
    apply list_elem_of_In in Hin, Hcf.
    apply list_elem_of_fmap. exists cf. split; [|done].
    rewrite Hr. by apply extract_row in Hin as (_ & ? & _).
  - apply List.Forall_forall. intros r Hin. apply in_flat_map in Hin as (cf & _ & Hin).
    apply list_elem_of_In in Hin.
    destruct (extract_row _ _ Hin) as (Hv%is_valid_spec & _).
    destruct (extract_rows _ _ Hin) as [Hc _]. tauto.
Qed.

(* ===================================================================== *)
(** * Further properties of the charts                                   *)
(* ===================================================================== *)

Lemma add_row_skips (sel : list string) (td : test_data_t) (r : row) :
  counts sel r = false -> add_row sel td r = Ok td.
Proof.
  unfold counts, name_in, add_row. destruct (Name r) as [n|]; [|done].
  destruct (str_in n sel); [|done]. simpl. by intros ->.
Qed.

Lemma foldM_add_row_counts (sel : list string) (rows : list row) (td : test_data_t) :
  foldM (add_row sel) (List.filter (counts sel) rows) td
  = foldM (add_row sel) rows td.
Proof.
  revert td. induction rows as [|r rows IH]; intros td; [done|].
  simpl. destruct (counts sel r) eqn:Hc; simpl.
  - destruct (add_row sel td r); simpl; [apply IH|done].
  - rewrite (add_row_skips _ _ _ Hc). simpl. apply IH.
Qed.

(** X13: the charts are made from the rows of the selected patients
    whose value is not 'N/A' and from nothing else: any other row can be
    taken out of the table, whatever it holds, and the callback returns
    the same figures or raises the same exception. *)
Theorem update_charts_ignores_other_rows (selected_names : list string) (table_data : list row) :
  update_charts selected_names table_data
  = update_charts selected_names (List.filter (counts selected_names) table_data).
Proof.
  unfold update_charts. destruct selected_names as [|first_patient names]; [done|].
  destruct table_data as [|r rows]; [done|].
  rewrite <- (foldM_add_row_counts _ (r :: rows)).
  by destruct (List.filter (counts (first_patient :: names)) (r :: rows)).
Qed.

Lemma add_row_raises_ValueError (sel : list string) (td : test_data_t) (r : row) (e : exn) :
  add_row sel td r = Raise e -> e = ValueError.
Proof.
  unfold add_row. destruct (Name r) as [n|]; [|done].
  destruct (str_in n sel); [|done]. destruct (negb _); [|done].
  destruct (float (Value r)) as [v|e'] eqn:Hv; simpl; [done|].
  intros [= <-]. by apply float_raises_ValueError in Hv.
Qed.

Lemma add_row_bad_value (sel : list string) (td : test_data_t) (r : row) (e : exn) :
  counts sel r = true -> float (Value r) = Raise e ->
  add_row sel td r = Raise ValueError.
Proof.
  unfold counts, name_in, add_row. intros Hc Hv.
  destruct (Name r) as [n|]; [|done].
  apply andb_true_iff in Hc as [-> ->]. rewrite Hv. simpl.
  by rewrite (float_raises_ValueError _ _ Hv).
Qed.

Lemma foldM_add_row_bad_value (sel : list string) (rows : list row) (td : test_data_t)
    (r : row) (e : exn) :
  r ∈ rows -> counts sel r = true -> float (Value r) = Raise e ->
  foldM (add_row sel) rows td = Raise ValueError.
Proof.
  intros Hin Hc Hv. revert td. induction rows as [|r' rows IH]; intros td.
  { by apply elem_of_nil in Hin. }
  simpl. destruct (add_row sel td r') as [td'|e'] eqn:Hadd; simpl.
  - apply elem_of_cons in Hin as [->|Hin]; [|by apply IH].
    by rewrite (add_row_bad_value _ _ _ _ Hc Hv) in Hadd.
  - by rewrite (add_row_raises_ValueError _ _ _ _ Hadd).
Qed.

(** X14: one row of a selected patient whose value is not 'N/A' and
    does not convert makes the callback raise ValueError: no figure is
    returned, for any patient. *)
Theorem update_charts_raises_on_a_bad_value
    (selected_names : list string) (table_data : list row) (r : row) (e : exn) :
  r ∈ table_data ->
  counts selected_names r = true ->
  float (Value r) = Raise e ->
  update_charts selected_names table_data = Raise ValueError.
Proof.
  intros Hin Hc Hv. unfold update_charts.
  destruct selected_names as [|first_patient names].
  { unfold counts, name_in in Hc. by destruct (Name r). }
  destruct table_data as [|r0 rows]; [by apply elem_of_nil in Hin|].
  by rewrite (foldM_add_row_bad_value _ _ _ _ _ Hin Hc Hv).
Qed.

(** X14, on a table with a value of 1,2. *)
Lemma update_charts_raises_on_a_bad_value_witness :
  update_charts ["Ben Roy"; "Asha Rao"]
    [asha_2023; mkRow (Some "Asha Rao") (Some "12/03/2023") "Platelets" "1,2"
                      "thou/mm3" "150 - 410" None; ben_2021]
  = Raise ValueError.
Proof.
  apply (update_charts_raises_on_a_bad_value _ _
           (mkRow (Some "Asha Rao") (Some "12/03/2023") "Platelets" "1,2"
                  "thou/mm3" "150 - 410" None) ValueError).
  - apply elem_of_cons. right. apply elem_of_cons. by left.
  - reflexivity.
  - reflexivity.
Defined.

Lemma update_charts_eq (first : string) (others : list string) (table_data : list row) :
  table_data ≠ [] ->
  update_charts (first :: others) table_data
  = let* test_data := foldM (add_row (first :: others)) table_data [] in
    traverse (fun test_name =>
                let* scatters := add_scatters test_data test_name (first :: others) in
                Ok (mkFigure test_name scatters))
             (keys (default [] (get first test_data))).
Proof. by destruct table_data. Qed.

Lemma str_in_first (first : string) (others : list string) :
  str_in first (first :: others) = true.
Proof. simpl. by rewrite String.eqb_refl. Qed.

Lemma counts_for_first (first : string) (r : row) :
  Name r = Some first -> Value r ≠ "N/A" -> counts_for first (TestName r) r = true.
Proof.
  intros Hn Hv. unfold counts_for. rewrite Hn, !String.eqb_refl. simpl.
  by apply negb_true_iff, String.eqb_neq.
Qed.

(** X15: a row of the first selected patient, with a value that is not
    'N/A', whose date is missing or is one strptime does not accept, makes
    the callback raise: no figure is returned. *)
Theorem update_charts_raises_on_a_bad_date
    (first : string) (others : list string) (table_data : list row) (r : row) (e : exn) :
  r ∈ table_data ->
  Name r = Some first -> Value r ≠ "N/A" ->
  strptime (Date r) = Raise e ->
  ∃ e', update_charts (first :: others) table_data = Raise e'.
Proof.
  intros Hin Hn Hv Hd.
  rewrite update_charts_eq by (intros ->; by apply elem_of_nil in Hin).
  destruct (foldM (add_row (first :: others)) table_data []) as [td|e0] eqn:Hfold;
    simpl; [|by exists e0].
  set (t := TestName r).
  destruct (build_lists_from_empty _ _ _ first t Hfold (str_in_first _ _))
    as (vs & _ & Hl).
  assert (Hobs : r ∈ observations table_data first t).
  { apply list_elem_of_In, filter_In. split; [by apply list_elem_of_In|].
    by apply counts_for_first. }
  unfold has_observation, lists_at in Hl.
  destruct (observations table_data first t) as [|r0 obs] eqn:Hobs_eq;
    [by apply elem_of_nil in Hobs|].
  assert (Hmk : ∃ e1, make_scatter first (lists_of vs (r0 :: obs)) = Raise e1).
  { unfold make_scatter. cbn [dates lists_of].
    destruct (traverse_raises strptime (map Date (r0 :: obs)) (Date r) e) as [e1 He1];
      [|done|].
    - apply list_elem_of_In, in_map. by apply list_elem_of_In.
    - rewrite He1. by exists e1. }
  destruct Hmk as [e1 Hmk].
  apply (traverse_raises _ _ t e1).
  - apply get_is_Some. by rewrite Hl.
  - cbn [add_scatters]. by rewrite Hl, Hmk.
Qed.

(** X15, on a table with a row without a date. *)
Lemma update_charts_raises_on_a_bad_date_witness :
  ∃ e', update_charts ["Asha Rao"]
          [asha_2023; mkRow (Some "Asha Rao") None "TSH" "6.1" "µIU/mL" "<4.5" None]
        = Raise e'.
Proof.
  apply (update_charts_raises_on_a_bad_date _ _ _
           (mkRow (Some "Asha Rao") None "TSH" "6.1" "µIU/mL" "<4.5" None) TypeError).
  - apply elem_of_cons. right. apply elem_of_cons. by left.
  - reflexivity.
  - discriminate.
  - reflexivity.
Defined.

(* --------------------------------------------------------------------- *)
(** ** The order of the figures                                          *)
(* --------------------------------------------------------------------- *)

Lemma filter_filter_andb {A : Type} (f g : A -> bool) (l : list A) :
  List.filter f (List.filter g l) = List.filter (fun a => g a && f a) l.
Proof.
  induction l as [|a l IH]; [done|]. simpl.
  destruct (g a); simpl; [|done]. destruct (f a); by rewrite IH.
Qed.

Lemma str_in_app (u : string) (l1 l2 : list string) :
  str_in u (l1 ++ l2) = str_in u l1 || str_in u l2.
Proof. unfold str_in. apply existsb_app. Qed.

Lemma add_keys_first_occurrences (ks l : list string) :
  add_keys ks l
  = ks ++ List.filter (fun u => negb (str_in u ks)) (first_occurrences l).
Proof.
  revert ks. induction l as [|t l IH]; intros ks; [by rewrite app_nil_r|].
  unfold add_keys in *. cbn [fold_left first_occurrences List.filter].
  rewrite filter_filter_andb. destruct (str_in t ks) eqn:Ht; simpl.
  - rewrite IH. f_equal. apply filter_ext. intros u.
    destruct (String.eqb_spec u t) as [->|Hne]; [by rewrite Ht|done].
  - rewrite IH, <- app_assoc. simpl. do 2 f_equal. apply filter_ext. intros u.
    rewrite str_in_app. simpl. rewrite orb_false_r, negb_orb. apply andb_comm.
Qed.

Lemma str_in_keys {V : Type} (t : string) (d : dict V) :
  str_in t (keys d) = if get t d is Some _ then true else false.
Proof.
  destruct (get t d) as [v|] eqn:Hg.
  - apply str_in_elem_of, get_is_Some. by rewrite Hg.
  - destruct (str_in t (keys d)) eqn:Hs; [|done].
    apply str_in_elem_of, get_is_Some in Hs as [? ?]. congruence.
Qed.

(** After the first loop the keys of a selected patient are the tests of
    the patient, in the order in which they come first in the table. *)
Lemma build_keys (sel : list string) (rows : list row) (td0 td : test_data_t) (p : string) :
  foldM (add_row sel) rows td0 = Ok td ->
  str_in p sel = true ->
  keys (default [] (get p td))
  = add_keys (keys (default [] (get p td0))) (tests_of rows p).
Proof.
  intros Hfold Hsel. revert td0 Hfold.
  induction rows as [|r rows IH]; intros td0 Hfold; simpl in Hfold.
  { by injection Hfold as <-. }
  destruct (add_row sel td0 r) as [td1|] eqn:Hadd; simpl in Hfold; [|done].
  rewrite (IH td1 Hfold). unfold tests_of. cbn [List.filter].
  unfold add_row in Hadd. destruct (Name r) as [n|]; simpl.
  2:{ by injection Hadd as <-. }
  destruct (String.eqb_spec n p) as [->|Hne]; simpl.
  - rewrite Hsel in Hadd. destruct (negb (Value r =? "N/A")); simpl.
    2:{ by injection Hadd as <-. }
    destruct (float (Value r)) as [v|]; simpl in Hadd; [|done].
    injection Hadd as <-. unfold add_keys. cbn [fold_left]. f_equal.
    rewrite get_update_eq. simpl. rewrite keys_update, str_in_keys.
    by destruct (get (TestName r) _).
  - f_equal. destruct (str_in n sel); [|by injection Hadd as <-].
    destruct (negb (Value r =? "N/A")); [|by injection Hadd as <-].
    destruct (float (Value r)) as [v|]; simpl in Hadd; [|done].
    injection Hadd as <-. by rewrite get_update_ne.
Qed.

Lemma figure_titles (td : test_data_t) (sel ks : list string) (figs : list figure) :
  traverse (fun test_name =>
              let* scatters := add_scatters td test_name sel in
              Ok (mkFigure test_name scatters)) ks = Ok figs ->
  map fig_title figs = ks.
Proof.
  revert figs. induction ks as [|t ks IH]; intros figs; simpl.
  - by intros [= <-].
  - destruct (add_scatters td t sel) as [ss|]; simpl; [|done].
    destruct (traverse _ ks) as [figs'|]; simpl; [|done].
    intros [= <-]. simpl. f_equal. by apply IH.
Qed.

(** X16: the figures come in the order in which the tests of the first
    selected patient come first in the table, one figure for each. *)
Theorem figures_in_order_of_first_occurrence
    (first : string) (others : list string) (table_data : list row) (figs : list figure) :
  update_charts (first :: others) table_data = Ok figs ->
  map fig_title figs = first_occurrences (tests_of table_data first).
Proof.
  destruct table_data as [|r0 rows0] eqn:Hrows; [by intros [= <-]|].
  rewrite <- Hrows. assert (Hne : table_data ≠ []) by by subst.
  clear Hrows r0 rows0. rewrite update_charts_eq by done.
  destruct (foldM (add_row (first :: others)) table_data []) as [td|] eqn:Hfold;
    [|done].
  cbn [bind]. intros Hfigs%figure_titles. rewrite Hfigs.
  rewrite (build_keys _ _ _ _ first Hfold (str_in_first _ _)).
  simpl. rewrite add_keys_first_occurrences. simpl.
  induction (first_occurrences _) as [|t l IH]; [done|]. simpl. by rewrite IH.
Qed.

(** X16, on a table where TSH comes before Hemoglobin. *)
Lemma figures_in_order_of_first_occurrence_witness :
  ∃ figs,
    update_charts ["Asha Rao"]
      [mkRow (Some "Asha Rao") (Some "05/06/2021") "TSH" "6.1" "µIU/mL" "<4.5" None;
       asha_2023; asha_2020]
    = Ok figs
    ∧ map fig_title figs = ["TSH"; "Hemoglobin"].
Proof.
  eexists. split; [vm_compute; reflexivity|].
  etransitivity.
  - apply (figures_in_order_of_first_occurrence "Asha Rao" []
             [mkRow (Some "Asha Rao") (Some "05/06/2021") "TSH" "6.1" "µIU/mL" "<4.5" None;
              asha_2023; asha_2020]).
    vm_compute; reflexivity.
  - vm_compute; reflexivity.
Defined.

(* --------------------------------------------------------------------- *)
(** ** The lines of a figure                                             *)
(* --------------------------------------------------------------------- *)

(** Every line of a figure of the callback was made by [make_scatter]. *)
Lemma series_made (first : string) (others : list string)
    (table_data : list row) (figs : list figure) (fig : figure) (s : scatter) :
  update_charts (first :: others) table_data = Ok figs ->
  fig ∈ figs -> s ∈ fig_data fig ->
  ∃ p l, make_scatter p l = Ok s.
Proof.
  intros (_ & _ & Hall)%update_charts_spec Hfig Hs.
  apply list_elem_of_In in Hfig.
  apply (proj1 (List.Forall_forall _ _) Hall) in Hfig.
  apply (Forall2_elem_of_r _ _ _ _ Hfig) in Hs as (p & _ & vs & _ & Hmk).
  eauto.
Qed.

Lemma min_date_spec (d : datetime) (l : list datetime) :
  min_date d l ∈ d :: l ∧ ∀ e, e ∈ d :: l -> ¬ dt_lt e (min_date d l).
Proof.
  revert d. induction l as [|e0 l IH]; intros d.
  - simpl. split; [by left|]. intros e ->%list_elem_of_singleton. unfold dt_lt. lia.
  - unfold min_date. cbn [fold_left]. fold (min_date (if dt_ltb e0 d then e0 else d) l).
    destruct (IH (if dt_ltb e0 d then e0 else d)) as [Hin Hmin]. split.
    + apply elem_of_cons in Hin as [->|Hin].
      * destruct (dt_ltb e0 d); [right; by left | by left].
      * right. by right.
    + assert (Hd : ¬ dt_lt (if dt_ltb e0 d then e0 else d)
                           (min_date (if dt_ltb e0 d then e0 else d) l)).
      { apply Hmin. by left. }
      intros e [->|[->|He]%elem_of_cons]%elem_of_cons.
      * apply (dt_not_lt_trans _ (if dt_ltb e0 d then e0 else d)); [|done].
        destruct (dt_ltb e0 d) eqn:Hlt; [|unfold dt_lt; lia].
        apply dt_ltb_spec in Hlt. by apply dt_lt_asym.
      * apply (dt_not_lt_trans _ (if dt_ltb e0 d then e0 else d)); [|done].
        destruct (dt_ltb e0 d) eqn:Hlt; [unfold dt_lt; lia|].
        by apply dt_ltb_false.
      * apply Hmin. by right.
Qed.

Lemma max_date_spec (d : datetime) (l : list datetime) :
  max_date d l ∈ d :: l ∧ ∀ e, e ∈ d :: l -> ¬ dt_lt (max_date d l) e.
Proof.
  revert d. induction l as [|e0 l IH]; intros d.
  - simpl. split; [by left|]. intros e ->%list_elem_of_singleton. unfold dt_lt. lia.
  - unfold max_date. cbn [fold_left]. fold (max_date (if dt_ltb d e0 then e0 else d) l).
    destruct (IH (if dt_ltb d e0 then e0 else d)) as [Hin Hmax]. split.
    + apply elem_of_cons in Hin as [->|Hin].
      * destruct (dt_ltb d e0); [right; by left | by left].
      * right. by right.
    + assert (Hd : ¬ dt_lt (max_date (if dt_ltb d e0 then e0 else d) l)
                           (if dt_ltb d e0 then e0 else d)).
      { apply Hmax. by left. }
      intros e [->|[->|He]%elem_of_cons]%elem_of_cons.
      * apply (dt_not_lt_trans _ (if dt_ltb d e0 then e0 else d)); [done|].
        destruct (dt_ltb d e0) eqn:Hlt; [|unfold dt_lt; lia].
        apply dt_ltb_spec in Hlt. by apply dt_lt_asym.
      * apply (dt_not_lt_trans _ (if dt_ltb d e0 then e0 else d)); [done|].
        destruct (dt_ltb d e0) eqn:Hlt; [unfold dt_lt; lia|].
        by apply dt_ltb_false.
      * apply Hmax. by right.
Qed.

Lemma make_scatter_extent (p : string) (l : test_lists) (s : scatter) :
  make_scatter p l = Ok s ->
  sc_x s ≠ []
  ∧ length (sc_x s) = length (sc_y s)
  ∧ sc_x0 s ∈ sc_x s ∧ sc_x1 s ∈ sc_x s
  ∧ ∀ d, d ∈ sc_x s -> ¬ dt_lt d (sc_x0 s) ∧ ¬ dt_lt (sc_x1 s) d.
Proof.
  unfold make_scatter.
  destruct (traverse strptime (dates l)) as [parsed|]; cbn [bind]; [|done].
  destruct (sorted_reverse (combine parsed (values l))) as [|first sorted_data];
    [done|].
  destruct (range l) as [|range0 others]; [done|].
  fold (reference_bounds range0).
  destruct (reference_bounds range0) as [[lo hi]|]; [|done].
  cbn [bind]. intros [= <-]. cbn [sc_x sc_y sc_x0 sc_x1].
  set (ds := map fst (first :: sorted_data)).
  destruct (min_date_spec first.1 ds) as [Hmin_in Hmin].
  destruct (max_date_spec first.1 ds) as [Hmax_in Hmax].
  assert (Hfirst : first.1 ∈ ds) by (unfold ds; simpl; by left).
  change (ds ≠ []
          ∧ length ds = length (map snd (first :: sorted_data))
          ∧ min_date first.1 ds ∈ ds ∧ max_date first.1 ds ∈ ds
          ∧ ∀ d, d ∈ ds -> ¬ dt_lt d (min_date first.1 ds)
                           ∧ ¬ dt_lt (max_date first.1 ds) d).
  split; [done|]. split; [unfold ds; by rewrite !List.length_map|].
  split; [by apply elem_of_cons in Hmin_in as [->|?]|].
  split; [by apply elem_of_cons in Hmax_in as [->|?]|].
  intros d Hd. split; [apply Hmin | apply Hmax]; by right.
Qed.

(** X17: a line is never empty and has as many dates as values; its two
    reference lines start at the oldest date of the line and end at the
    newest one, both being dates of the line. *)
Theorem reference_lines_span_the_series
    (first : string) (others : list string) (table_data : list row) (figs : list figure) :
  update_charts (first :: others) table_data = Ok figs ->
  ∀ fig s, fig ∈ figs -> s ∈ fig_data fig ->
    sc_x s ≠ []
    ∧ length (sc_x s) = length (sc_y s)
    ∧ sc_x0 s ∈ sc_x s ∧ sc_x1 s ∈ sc_x s
    ∧ ∀ d, d ∈ sc_x s -> ¬ dt_lt d (sc_x0 s) ∧ ¬ dt_lt (sc_x1 s) d.
Proof.
  intros Hup fig s Hfig Hs.
  destruct (series_made _ _ _ _ _ _ Hup Hfig Hs) as (p & l & Hmk).
  by apply (make_scatter_extent p l).
Qed.

(** X17, on the two results of one patient. *)
Lemma reference_lines_span_the_series_witness :
  ∃ fig s,
    update_charts ["Asha Rao"] [asha_2023; asha_2020] = Ok [fig]
    ∧ fig_data fig = [s]
    ∧ sc_x0 s = mkDate 2020 1 1 ∧ sc_x1 s = mkDate 2023 3 12
    ∧ sc_x0 s ∈ sc_x s.
Proof.
  eexists. eexists. split; [vm_compute; reflexivity|]. split; [reflexivity|].
  split; [reflexivity|]. split; [reflexivity|].
  eapply (reference_lines_span_the_series
            "Asha Rao" [] [asha_2023; asha_2020] _ ltac:(vm_compute; reflexivity)).
  - apply list_elem_of_singleton. reflexivity.
  - apply list_elem_of_singleton. reflexivity.
Defined.

(* --------------------------------------------------------------------- *)
(** ** Equal dates                                                       *)
(* --------------------------------------------------------------------- *)

Lemma dt_eqb_not_ltb (a b d : datetime) :
  dt_eqb a d = true -> dt_eqb b d = true -> dt_ltb a b = false.
Proof.
  unfold dt_eqb. rewrite !andb_true_iff, !Z.eqb_eq.
  intros [[Hy Hm] Hd] [[Hy' Hm'] Hd']. apply dt_ltb_false. unfold dt_lt. lia.
Qed.

Lemma insert_desc_filter {A : Type} (d : datetime) (x : datetime * A) (l : list (datetime * A)) :
  List.filter (fun pt => dt_eqb pt.1 d) (insert_desc x l)
  = List.filter (fun pt => dt_eqb pt.1 d) (x :: l).
Proof.
  induction l as [|y l IH]; [done|]. cbn [insert_desc].
  destruct (dt_ltb x.1 y.1) eqn:Hlt; [|done].
  cbn [List.filter] in *. rewrite IH.
  destruct (dt_eqb x.1 d) eqn:Hx, (dt_eqb y.1 d) eqn:Hy; try done.
  by rewrite (dt_eqb_not_ltb _ _ _ Hx Hy) in Hlt.
Qed.

Lemma sorted_reverse_filter {A : Type} (d : datetime) (l : list (datetime * A)) :
  List.filter (fun pt => dt_eqb pt.1 d) (sorted_reverse l)
  = List.filter (fun pt => dt_eqb pt.1 d) l.
Proof.
  induction l as [|x l IH]; [done|]. cbn [sorted_reverse].
  rewrite insert_desc_filter. cbn [List.filter]. by rewrite IH.
Qed.

(** X18: the sort keeps the order of the table among equal dates: the
    points of a line that bear one date are the observations of that
    date, in the order in which the table has them. *)
Theorem equal_dates_keep_table_order
    (first : string) (others : list string) (table_data : list row) (figs : list figure) :
  update_charts (first :: others) table_data = Ok figs ->
  ∀ fig s, fig ∈ figs -> s ∈ fig_data fig ->
    ∃ vs ds,
      traverse (fun r => float (Value r))
               (observations table_data (sc_name s) (fig_title fig)) = Ok vs
      ∧ traverse strptime
                 (map Date (observations table_data (sc_name s) (fig_title fig)))
        = Ok ds
      ∧ ∀ d, List.filter (fun pt => dt_eqb pt.1 d) (combine (sc_x s) (sc_y s))
             = List.filter (fun pt => dt_eqb pt.1 d) (combine ds vs).
Proof.
  intros Hup fig s Hfig Hs.
  destruct (series_of_figure _ _ _ _ _ _ Hup Hfig Hs)
    as (_ & vs & ds & Hvs & Hds & Hx & Hy & _).
  exists vs, ds. split; [done|]. split; [done|]. intros d.
  rewrite Hx, Hy, combine_fst_snd. apply sorted_reverse_filter.
Qed.

(** X18, on two results of one day: they stay in the order of the
    table. *)
Lemma equal_dates_keep_table_order_witness :
  ∃ fig s,
    update_charts ["Asha Rao"]
      [asha_2023;
       mkRow (Some "Asha Rao") (Some "12/03/2023") "Hemoglobin" "14.1" "g/dL"
             "13.0 - 17.0" None]
    = Ok [fig]
    ∧ fig_data fig = [s]
    ∧ sc_y s = [Fin 13.5; Fin 14.1]
    ∧ ∃ vs ds, ∀ d, List.filter (fun pt => dt_eqb pt.1 d) (combine (sc_x s) (sc_y s))
                    = List.filter (fun pt => dt_eqb pt.1 d) (combine ds vs).
Proof.
  eexists. eexists. split; [vm_compute; reflexivity|]. split; [reflexivity|].
  split; [reflexivity|].
  edestruct (equal_dates_keep_table_order "Asha Rao" []
               [asha_2023;
                mkRow (Some "Asha Rao") (Some "12/03/2023") "Hemoglobin" "14.1" "g/dL"
                      "13.0 - 17.0" None])
    as (vs & ds & _ & _ & H).
  - vm_compute; reflexivity.
  - apply list_elem_of_singleton. reflexivity.
  - apply list_elem_of_singleton. reflexivity.
  - exists vs, ds. exact H.
Defined.

(* --------------------------------------------------------------------- *)
(** ** When the callback returns                                         *)
(* --------------------------------------------------------------------- *)

Lemma traverse_ok {A B : Type} (f : A -> result B) (l : list A) :
  (∀ a, a ∈ l -> ∃ b, f a = Ok b) -> ∃ l', traverse f l = Ok l'.
Proof.
  induction l as [|a l IH]; intros Hf; [by exists []|].
  destruct (Hf a) as [b Hb]; [by left|].
  destruct IH as [l' Hl']; [intros a' Ha'; apply Hf; by right|].
  exists (b :: l'). simpl. by rewrite Hb, Hl'.
Qed.

Lemma foldM_add_row_ok (sel : list string) (rows : list row) (td : test_data_t) :
  Forall (fun r => counts sel r = true -> ∃ v, float (Value r) = Ok v) rows ->
  ∃ td', foldM (add_row sel) rows td = Ok td'.
Proof.
  intros Hrows. revert td. induction Hrows as [|r rows Hr _ IH]; intros td.
  { by exists td. }
  simpl. destruct (counts sel r) eqn:Hc.
  - destruct (Hr eq_refl) as [v Hv].
    unfold counts, name_in in Hc. unfold add_row.
    destruct (Name r) as [n|]; [|done].
    apply andb_true_iff in Hc as [-> ->]. rewrite Hv. simpl. apply IH.
  - rewrite (add_row_skips _ _ _ Hc). simpl. apply IH.
Qed.

Lemma counts_for_counts (sel : list string) (p t : string) (r : row) :
  str_in p sel = true -> counts_for p t r = true -> counts sel r = true.
Proof.
  unfold counts_for, counts, name_in. intros Hsel Hc.
  apply andb_true_iff in Hc as [Hc ->]. apply andb_true_iff in Hc as [Hn _].
  destruct (Name r) as [n|]; [|done]. apply String.eqb_eq in Hn. subst n.
  by rewrite Hsel.
Qed.

Lemma insert_desc_nonempty {A : Type} (x : datetime * A) (l : list (datetime * A)) :
  insert_desc x l ≠ [].
Proof. destruct l as [|y l]; simpl; [done|]. by destruct (dt_ltb x.1 y.1). Qed.

(** The line of a patient and a test is made when the observations are
    fit for the charts. *)
Lemma make_scatter_ok (p : string) (vs : list pyfloat) (r0 : row) (obs : list row) :
  length vs = length (r0 :: obs) ->
  Forall chartable (r0 :: obs) ->
  ∃ s, make_scatter p (lists_of vs (r0 :: obs)) = Ok s.
Proof.
  intros Hlen Hfit. unfold make_scatter. cbn [dates values range lists_of].
  destruct (traverse_ok strptime (map Date (r0 :: obs))) as [ds Hds].
  { intros d (r & <- & Hr)%list_elem_of_In%in_map_iff.
    apply (proj1 (List.Forall_forall _ _) Hfit) in Hr. by destruct Hr as (_ & ? & _). }
  rewrite Hds. cbn [bind].
  pose proof (traverse_length _ _ _ Hds) as Hlen_ds. rewrite List.length_map in Hlen_ds.
  destruct ds as [|d ds]; [done|]. destruct vs as [|v vs]; [done|].
  cbn [combine sorted_reverse].
  destruct (insert_desc (d, v) (sorted_reverse (combine ds vs))) as [|first sorted_data] eqn:Hs.
  { by apply insert_desc_nonempty in Hs. }
  cbn [map]. fold (reference_bounds (ReferenceRange r0)).
  apply Forall_cons in Hfit as [(_ & _ & [b ->]) _]. cbn [bind]. eauto.
Qed.

Lemma add_scatters_ok (td : test_data_t) (t : string) (sel : list string) :
  (∀ p l, p ∈ sel -> lists_at p t td = Some l -> ∃ s, make_scatter p l = Ok s) ->
  ∃ ss, add_scatters td t sel = Ok ss.
Proof.
  induction sel as [|p sel IH]; intros Hmk; [by exists []|].
  destruct IH as [ss Hss]; [intros p' l Hp'; apply Hmk; by right|].
  cbn [add_scatters]. fold (lists_at p t td).
  destruct (lists_at p t td) as [l|] eqn:Hl; [|by exists ss].
  destruct (Hmk p l) as [s Hs]; [by left|done|].
  rewrite Hs, Hss. cbn [bind]. eauto.
Qed.

(** X19: the callback returns its figures, and raises nothing, whenever
    every row of a selected patient with a value other than 'N/A' is fit
    for the charts: its value converts, strptime accepts its date, and the
    reference lines can be read from its reference range. *)
Theorem update_charts_returns (selected_names : list string) (table_data : list row) :
  Forall (fun r => counts selected_names r = true -> chartable r) table_data ->
  ∃ figs, update_charts selected_names table_data = Ok figs.
Proof.
  intros Hfit. destruct selected_names as [|first others]; [by exists []|].
  destruct table_data as [|r0 rows0] eqn:Hrows; [by exists []|].
  rewrite <- Hrows in *. assert (Hne : table_data ≠ []) by by subst.
  clear Hrows r0 rows0. rewrite update_charts_eq by done.
  remember (first :: others) as sel eqn:Hsel_eq.
  destruct (foldM_add_row_ok sel table_data []) as [td Hfold].
  { apply (Forall_impl _ _ _ Hfit). intros r Hr Hc. by destruct (Hr Hc) as [? _]. }
  rewrite Hfold. cbn [bind]. apply traverse_ok. intros t _.
  destruct (add_scatters_ok td t sel) as [ss Hss]; [|rewrite Hss; cbn [bind]; eauto].
  intros p l Hp Hl. apply str_in_elem_of in Hp.
  destruct (build_lists_from_empty _ _ _ p t Hfold Hp) as (vs & Hvs & Hl').
  rewrite Hl in Hl'. unfold has_observation in Hl'.
  destruct (observations table_data p t) as [|r obs] eqn:Hobs; [done|].
  injection Hl' as ->. apply make_scatter_ok.
  - by apply traverse_length in Hvs.
  - apply List.Forall_forall. intros r' Hr'. rewrite <- Hobs in Hr'.
    apply filter_In in Hr' as [Hin Hc].
    apply (proj1 (List.Forall_forall _ _) Hfit _ Hin).
    by apply (counts_for_counts sel p t).
Qed.

(** X19, on the table of the examples. *)
Lemma update_charts_returns_witness :
  ∃ figs, update_charts ["Ben Roy"; "Asha Rao"] [asha_2023; asha_2020; ben_2021] = Ok figs.
Proof.
  apply update_charts_returns.
  repeat (apply Forall_cons; split; [intros _|]); try (by apply List.Forall_nil);
    (split; [|split]); eexists; vm_compute; reflexivity.
Defined.

(** X20: when the first selected patient has no row with a value other
    than 'N/A', no figure is drawn at all, whatever the other selected
    patients have, provided the values of their rows convert. *)
Theorem no_figure_without_the_first_patient
    (first : string) (others : list string) (table_data : list row) :
  Forall (fun r => counts (first :: others) r = true -> ∃ v, float (Value r) = Ok v)
         table_data ->
  tests_of table_data first = [] ->
  update_charts (first :: others) table_data = Ok [].
Proof.
  intros Hfit Htests. destruct table_data as [|r0 rows0] eqn:Hrows; [done|].
  rewrite <- Hrows in *. assert (Hne : table_data ≠ []) by by subst.
  clear Hrows r0 rows0. rewrite update_charts_eq by done.
  destruct (foldM_add_row_ok (first :: others) table_data [] Hfit) as [td Hfold].
  rewrite Hfold. cbn [bind].
  rewrite (build_keys _ _ _ _ first Hfold (str_in_first _ _)), Htests. done.
Qed.

(** X20, on a selection that starts with a patient without results. *)
Lemma no_figure_without_the_first_patient_witness :
  update_charts ["Cara Diaz"; "Asha Rao"] [asha_2023; asha_2020; ben_2021] = Ok [].
Proof.
  apply no_figure_without_the_first_patient; [|reflexivity].
  repeat (apply Forall_cons; split; [intros _|]); try (by apply List.Forall_nil);
    eexists; vm_compute; reflexivity.
Defined.
